(** * MCP3221 IIO driver: a shallow embedding of [mcp3221.c]

    The driver reads a two byte big-endian sample over I2C, sign-extends it
    from bit 11, and reports it together with a fixed scale and a fixed
    sampling frequency.  C integers are modelled as [Z] with their
    wrap-around written out, the receive buffer as [list byte], the mutex as
    a two-valued state, and the calls into the kernel as steps of a small
    state monad that can block. *)

From Stdlib Require Import ZArith List Bool Lia String Ascii.
From Stdlib Require Strings.Byte.
Import ListNotations.
Local Open Scope Z_scope.

(** ** Kernel interfaces the driver is written against

    None of this is code of the driver: the constants are those of the
    kernel headers it includes ([uapi/asm-generic/errno*.h],
    [linux/iio/types.h], [uapi/linux/i2c.h], [linux/iio/iio.h]) and the
    helpers follow [linux/bitops.h], [asm/unaligned.h] and [linux/mutex.h]. *)
Module Kernel.

Definition ENOMEM : Z := 12.
Definition EINVAL : Z := 22.
Definition EOPNOTSUPP : Z := 95.

Definition IIO_VAL_INT : Z := 1.
Definition IIO_VAL_INT_PLUS_MICRO : Z := 2.
Definition IIO_VAL_INT_PLUS_NANO : Z := 3.

Definition IIO_CHAN_INFO_RAW : Z := 0.
Definition IIO_CHAN_INFO_SCALE : Z := 2.
Definition IIO_CHAN_INFO_SAMP_FREQ : Z := 12.

Definition IIO_VOLTAGE : Z := 0.
Definition INDIO_DIRECT_MODE : Z := 1.
Definition I2C_FUNC_I2C : Z := 1.

(** [BIT(nr)] *)
Definition BIT (nr : Z) : Z := Z.shiftl 1 nr.

(** Conversions to the fixed-width C types. *)
Definition to_u8 (x : Z) : Z := x mod 2 ^ 8.
Definition to_u16 (x : Z) : Z := x mod 2 ^ 16.
Definition to_u32 (x : Z) : Z := x mod 2 ^ 32.
Definition to_s32 (x : Z) : Z :=
  let u := x mod 2 ^ 32 in
  if u <? 2 ^ 31 then u else u - 2 ^ 32.

Definition byte_val (b : Byte.byte) : Z := Z.of_N (Byte.to_N b).

(** [get_unaligned_be16(p)]: [p[0] << 8 | p[1]] as a [u16]. *)
Definition get_unaligned_be16 (p : list Byte.byte) : Z :=
  to_u16 (Z.lor (Z.shiftl (byte_val (nth 0 p Byte.x00)) 8)
                (byte_val (nth 1 p Byte.x00))).

(** [sign_extend32(value, index)]:
    [u8 shift = 31 - index; return (s32)(value << shift) >> shift;] *)
Definition sign_extend32 (value index : Z) : Z :=
  let shift := to_u8 (31 - index) in
  Z.shiftr (to_s32 (to_u32 (Z.shiftl value shift))) shift.

(** [i2c_check_functionality(adap, func)] on the adapter's functionality
    bit mask. *)
Definition i2c_check_functionality (adapter_func func : Z) : bool :=
  Z.land func adapter_func =? func.

(** A mutex is held or free. *)
Inductive mutex : Type :=
| Unlocked
| Locked.

End Kernel.
Import Kernel.

(** Calls that leave the driver, in the order they are made. *)
Inductive event : Type :=
| EvCheckFunctionality (func : Z)
| EvDeviceAlloc
| EvMutexInit
| EvDeviceRegister
| EvSetClientdata
| EvMutexLock
| EvI2cRecv (count : Z)
| EvMutexUnlock.

Definition is_check_functionality (e : event) : bool :=
  match e with
  | EvCheckFunctionality _ => true
  | _ => false
  end.

(** [count_events p l]: how many events of [l] satisfy [p]. *)
Definition count_events (p : event -> bool) (l : list event) : nat :=
  List.length (filter p l).

(** ** Data of the driver *)

Record i2c_client : Type := mk_i2c_client {
  client_name : string;
  client_addr : Z;
  adapter_functionality : Z
}.

(** [struct iio_chan_spec], the fields the driver sets. *)
Record iio_chan_spec : Type := mk_iio_chan_spec {
  chan_type : Z;
  indexed : Z;
  channel : Z;
  info_mask_separate : Z;
  info_mask_shared_by_type : Z
}.

Definition MCP3221_CHAN (_index : Z) : iio_chan_spec :=
  {| chan_type := IIO_VOLTAGE;
     indexed := 1;
     channel := _index;
     info_mask_separate :=
       Z.lor (BIT IIO_CHAN_INFO_RAW) (BIT IIO_CHAN_INFO_SCALE);
     info_mask_shared_by_type := BIT IIO_CHAN_INFO_SAMP_FREQ |}.

(** Client data (each client gets its own). *)
Record mcp3221 : Type := mk_mcp3221 {
  i2c : i2c_client;
  id : Z;
  lock : mutex
}.

Definition mcp3221_channels : list iio_chan_spec := [MCP3221_CHAN 0].

(** The callback table [mcp3221_info] is a single fixed value. *)
Inductive iio_info : Type :=
| mcp3221_info.

Record iio_dev : Type := mk_iio_dev {
  name : string;
  modes : Z;
  info : iio_info;
  channels : list iio_chan_spec;
  num_channels : Z;
  priv : mcp3221
}.

Definition iio_priv (d : iio_dev) : mcp3221 := priv d.

Definition set_lock (m : mutex) (d : iio_dev) : iio_dev :=
  {| name := name d; modes := modes d; info := info d;
     channels := channels d; num_channels := num_channels d;
     priv := {| i2c := i2c (priv d); id := id (priv d); lock := m |} |}.

(** [store buf data]: the bytes [data] written at the start of [buf]; the
    buffer keeps its length. *)
Fixpoint store (buf data : list Byte.byte) : list Byte.byte :=
  match buf, data with
  | _ :: buf', d :: data' => d :: store buf' data'
  | _, _ => buf
  end.

(** ** Pure callbacks *)

Definition mcp3221_write_raw_get_fmt (mask : Z) : Z :=
  if mask =? IIO_CHAN_INFO_SCALE then IIO_VAL_INT_PLUS_NANO
  else if mask =? IIO_CHAN_INFO_SAMP_FREQ then IIO_VAL_INT_PLUS_MICRO
  else - EINVAL.

(** The value stored by [*val2 = 3300000000/4096]: the constant does not fit
    an [int], so the division is done in a 64-bit type and truncates. *)
Definition scale_nano : Z := to_s32 (Z.quot 3300000000 4096).


(** ** The sysfs attribute callbacks

    [sprintf] is modelled by the text it leaves in the buffer and the number
    of characters it reports. *)

Definition newline : string := String (ascii_of_nat 10) EmptyString.

Definition digit_char (d : Z) : ascii := ascii_of_nat (48 + Z.to_nat d).

(** [fmt_u fuel width n acc]: the decimal digits of [n], padded with zeros
    to at least [width] digits, in front of [acc]; ten digits are enough for
    an [unsigned int]. *)
Fixpoint fmt_u (fuel width : nat) (n : Z) (acc : string) : string :=
  match fuel with
  | O => acc
  | S fuel' =>
      if (n =? 0) && Nat.eqb width 0 then acc
      else fmt_u fuel' (Nat.pred width) (n / 10)
                 (String (digit_char (n mod 10)) acc)
  end.

(** [sprintf(buf, "5500\n")] *)
Definition mcp3221_show_samp_freqs : string * Z :=
  let buf := ("5500" ++ newline)%string in
  (buf, Z.of_nat (String.length buf)).

(** [sprintf(buf, "0.%09u\n", 3300000000/4096)] *)
Definition mcp3221_show_scales : string * Z :=
  let buf :=
    ("0." ++ fmt_u 10 9 (to_u32 (Z.quot 3300000000 4096)) "" ++ newline)%string
  in (buf, Z.of_nat (String.length buf)).

(** ** Construction

    [devm_iio_device_alloc] and [devm_iio_device_register] belong to the
    kernel; what they answer is an input of the probe. *)
Record probe_env : Type := mk_probe_env {
  alloc_ok : bool;
  register_ret : Z
}.

(** What a probe leaves behind: its return code, the device object it
    obtained (if any), the client data it set (if any), and the kernel calls
    it made. *)
Record probe_result : Type := mk_probe_result {
  probe_ret : Z;
  probe_dev : option iio_dev;
  probe_clientdata : option iio_dev;
  probe_log : list event
}.

Definition mcp3221_probe (client : i2c_client) (env : probe_env)
  : probe_result :=
  if negb (i2c_check_functionality (adapter_functionality client) I2C_FUNC_I2C)
  then
    {| probe_ret := - EOPNOTSUPP;
       probe_dev := None;
       probe_clientdata := None;
       probe_log := [EvCheckFunctionality I2C_FUNC_I2C] |}
  else if negb (alloc_ok env) then
    {| probe_ret := - ENOMEM;
       probe_dev := None;
       probe_clientdata := None;
       probe_log := [EvCheckFunctionality I2C_FUNC_I2C; EvDeviceAlloc] |}
  else
    let indio_dev :=
      {| name := client_name client;
         modes := INDIO_DIRECT_MODE;
         info := mcp3221_info;
         channels := mcp3221_channels;
         num_channels := 1;
         priv := {| i2c := client; id := 0; lock := Unlocked |} |} in
    let err := register_ret env in
    if err <? 0 then
      {| probe_ret := err;
         probe_dev := Some indio_dev;
         probe_clientdata := None;
         probe_log := [EvCheckFunctionality I2C_FUNC_I2C; EvDeviceAlloc;
                       EvMutexInit; EvDeviceRegister] |}
    else
      {| probe_ret := 0;
         probe_dev := Some indio_dev;
         probe_clientdata := Some indio_dev;
         probe_log := [EvCheckFunctionality I2C_FUNC_I2C; EvDeviceAlloc;
                       EvMutexInit; EvDeviceRegister; EvSetClientdata] |}.

(** ** The world a callback runs in

    One device, the bus behind its client, and the kernel calls made so
    far.  [B] is the state of the bus transport, which the driver never
    inspects. *)
Record world (B : Type) : Type := mk_world {
  iio : iio_dev;
  bus : B;
  log : list event
}.
Arguments mk_world {B}.
Arguments iio {B}.
Arguments bus {B}.
Arguments log {B}.

(** The world right after a successful probe. *)
Definition attach {B : Type} (b : B) (r : probe_result) : option (world B) :=
  match probe_clientdata r with
  | Some d => Some {| iio := d; bus := b; log := probe_log r |}
  | None => None
  end.

(** Requests the framework sends to a bound device. *)
Inductive request : Type :=
| ReqRead (chan : iio_chan_spec) (val1 val2 mask : Z)
| ReqWrite (chan : iio_chan_spec) (val1 val2 mask : Z).

(** A RAW read is the only request that reaches the bus. *)
Definition is_raw_read (r : request) : bool :=
  match r with
  | ReqRead _ _ _ mask => mask =? IIO_CHAN_INFO_RAW
  | ReqWrite _ _ _ _ => false
  end.

(** The kernel calls one request makes when the lock is free. *)
Definition calls_of (r : request) : list event :=
  if is_raw_read r then [EvMutexLock; EvI2cRecv 2; EvMutexUnlock] else [].

Definition is_i2c_recv (e : event) : bool :=
  match e with
  | EvI2cRecv _ => true
  | _ => false
  end.

(** The kernel calls of a probe that runs to its end, in program order. *)
Definition probe_calls : list event :=
  [EvCheckFunctionality I2C_FUNC_I2C; EvDeviceAlloc; EvMutexInit;
   EvDeviceRegister; EvSetClientdata].

(** The kinds a channel descriptor advertises, over both of its masks. *)
Definition advertised (c : iio_chan_spec) (kind : Z) : bool :=
  Z.testbit (Z.lor (info_mask_separate c) (info_mask_shared_by_type c)) kind.

(** What a RAW read answers for one transfer (its code and the bytes it
    delivered) when the second value slot held [val2]. *)
Definition answer_of_transfer (val2 : Z) (t : Z * list Byte.byte)
  : Z * Z * Z :=
  (if fst t <? 0 then - EINVAL else IIO_VAL_INT,
   to_s32 (sign_extend32
             (to_u32 (get_unaligned_be16
                        (store [Byte.x00; Byte.x00; Byte.x00; Byte.x00]
                               (firstn 2 (snd t))))) 11),
   val2).

(** ** A scripted transport

    A bus whose answers are listed in advance: each transfer takes the next
    answer, a return code with the bytes put on the wire.  When the script
    is used up the device no longer answers. *)
Definition EREMOTEIO : Z := 121.

Definition script : Type := list (Z * list Byte.byte).

Definition script_xfer (c : i2c_client) (s : script)
  : Z * list Byte.byte * script :=
  match s with
  | (ret, data) :: s' => (ret, data, s')
  | [] => (- EREMOTEIO, [], [])
  end.

Definition example_client : i2c_client :=
  {| client_name := "mcp3221"; client_addr := 77; adapter_functionality := 1 |}.

Definition smbus_only_client : i2c_client :=
  {| client_name := "mcp3221"; client_addr := 77;
     adapter_functionality := 983040 |}.

Definition example_dev (l : mutex) : iio_dev :=
  {| name := "mcp3221";
     modes := INDIO_DIRECT_MODE;
     info := mcp3221_info;
     channels := mcp3221_channels;
     num_channels := 1;
     priv := {| i2c := example_client; id := 0; lock := l |} |}.

Definition example_world (s : script) : world script :=
  {| iio := example_dev Unlocked; bus := s; log := [] |}.

(** ** The driver over an arbitrary transport *)
Section Driver.

(** The bus transport: for a client and a bus state, the return code of the
    transfer, the bytes it delivered, and the next bus state. *)
Variable B : Type.
Variable xfer : i2c_client -> B -> Z * list Byte.byte * B.

(** A kernel call changes the world and returns, or never returns ([None]):
    with a single caller, a [mutex_lock] on a held mutex waits forever. *)
Definition M (A : Type) : Type := world B -> option (A * world B).

Definition ret {A : Type} (a : A) : M A := fun w => Some (a, w).

Definition bind {A C : Type} (m : M A) (k : A -> M C) : M C :=
  fun w =>
    match m w with
    | Some (a, w') => k a w'
    | None => None
    end.

Notation "x <- m ;; k" := (bind m (fun x => k))
  (at level 61, m at next level, right associativity).
Notation "' p <- m ;; k" := (bind m (fun x => let p := x in k))
  (at level 61, p pattern, m at next level, right associativity).
Notation "m ;; k" := (bind m (fun _ => k))
  (at level 61, right associativity).

Definition emit (e : event) (w : world B) : world B :=
  {| iio := iio w; bus := bus w; log := log w ++ [e] |}.

Definition mutex_lock : M unit :=
  fun w =>
    match lock (iio_priv (iio w)) with
    | Unlocked =>
        Some (tt, emit EvMutexLock
                    {| iio := set_lock Locked (iio w);
                       bus := bus w; log := log w |})
    | Locked => None
    end.

Definition mutex_unlock : M unit :=
  fun w =>
    Some (tt, emit EvMutexUnlock
                {| iio := set_lock Unlocked (iio w);
                   bus := bus w; log := log w |}).

(** [i2c_master_recv(client, buf, count)]: at most [count] delivered bytes
    land at the start of [buf]. *)
Definition i2c_master_recv (buf : list Byte.byte) (count : Z)
  : M (Z * list Byte.byte) :=
  fun w =>
    let '(r, data, b') := xfer (i2c (iio_priv (iio w))) (bus w) in
    Some ((r, store buf (firstn (Z.to_nat count) data)),
          emit (EvI2cRecv count)
            {| iio := iio w; bus := b'; log := log w |}).

(** Returns the code of the transfer and what is stored in [*value]. *)
Definition mcp3221_read : M (Z * Z) :=
  let buf := [Byte.x00; Byte.x00; Byte.x00; Byte.x00] in
  ' (r, buf) <- i2c_master_recv buf 2 ;;
  let temp := to_u32 (get_unaligned_be16 buf) in
  let value := to_s32 (sign_extend32 temp 11) in
  ret (r, value).

Definition mcp3221_read_channel (chan : iio_chan_spec) : M (Z * Z) :=
  let req_channel := to_u8 (channel chan) in
  mutex_lock ;;
  r <- mcp3221_read ;;
  mutex_unlock ;;
  ret r.

(** Returns the return code with the contents of [*val1] and [*val2] after
    the call; [val1] and [val2] are their contents before it. *)
Definition mcp3221_read_raw (chan : iio_chan_spec) (val1 val2 mask : Z)
  : M (Z * Z * Z) :=
  if mask =? IIO_CHAN_INFO_RAW then
    ' (err, v) <- mcp3221_read_channel chan ;;
    if err <? 0 then ret (- EINVAL, v, val2)
    else ret (IIO_VAL_INT, v, val2)
  else if mask =? IIO_CHAN_INFO_SCALE then
    ret (IIO_VAL_INT_PLUS_NANO, 0, scale_nano)
  else if mask =? IIO_CHAN_INFO_SAMP_FREQ then
    ret (IIO_VAL_INT, 5500, val2)
  else
    ret (- EINVAL, val1, val2).

Definition mcp3221_write_raw (chan : iio_chan_spec) (val1 val2 mask : Z)
  : M Z :=
  if mask =? IIO_CHAN_INFO_SCALE then ret (- EINVAL)
  else if mask =? IIO_CHAN_INFO_SAMP_FREQ then ret (- EINVAL)
  else ret (- EINVAL).

(** The framework serving requests one after the other; each answer is the
    return code with the two value slots. *)
Definition serve (r : request) : M (Z * Z * Z) :=
  match r with
  | ReqRead chan val1 val2 mask => mcp3221_read_raw chan val1 val2 mask
  | ReqWrite chan val1 val2 mask =>
      e <- mcp3221_write_raw chan val1 val2 mask ;;
      ret (e, val1, val2)
  end.

Fixpoint serve_all (rs : list request) : M (list (Z * Z * Z)) :=
  match rs with
  | [] => ret []
  | r :: rs' =>
      a <- serve r ;;
      l <- serve_all rs' ;;
      ret (a :: l)
  end.

(** The return code of an answer, and its first value slot. *)
Definition code_of {S : Type} (o : option (Z * Z * Z * S)) : option Z :=
  option_map (fun x => fst (fst (fst x))) o.

Definition slot1_of {S : Type} (o : option (Z * Z * Z * S)) : option Z :=
  option_map (fun x => snd (fst (fst x))) o.

(** Shorthands for the statements below: the value [mcp3221_read] stores
    for a buffer, the buffer as it is initialised, and the client of the
    device in a world. *)
Local Abbreviation sample buf :=
  (to_s32 (sign_extend32 (to_u32 (get_unaligned_be16 buf)) 11)).

Local Abbreviation zero4 := [Byte.x00; Byte.x00; Byte.x00; Byte.x00].

Local Abbreviation client_of w := (i2c (iio_priv (iio w))).

Ltac run_driver :=
  unfold mcp3221_read_raw, mcp3221_write_raw, mcp3221_read_channel,
    mcp3221_read, i2c_master_recv, mutex_lock, mutex_unlock, bind, ret, emit;
  cbn [iio bus log iio_priv priv lock i2c set_lock].

(** ** Facts about the kernel helpers *)

Lemma byte_val_range (b : Byte.byte) : 0 <= byte_val b < 256.
Proof.
  unfold byte_val. pose proof (Byte.to_N_bounded b). lia.
Qed.

Lemma to_u32_shiftl_20 (v : Z) :
  to_u32 (Z.shiftl v 20) = (v mod 4096) * 2 ^ 20.
Proof.
  unfold to_u32. rewrite Z.shiftl_mul_pow2 by lia.
  change (2 ^ 32) with (4096 * 2 ^ 20).
  rewrite Z.mul_mod_distr_r by lia. reflexivity.
Qed.

Lemma testbit_11_low12 (v : Z) :
  0 <= v -> Z.testbit v 11 = (2048 <=? v mod 4096).
Proof.
  intros Hv.
  destruct (Z.testbit v 11) eqn:E.
  - apply Z.testbit_true in E; [|lia].
    change (2 ^ 11) with 2048 in E.
    symmetry. apply Z.leb_le.
    Z.div_mod_to_equations. lia.
  - apply Z.testbit_false in E; [|lia].
    change (2 ^ 11) with 2048 in E.
    symmetry. apply Z.leb_gt.
    Z.div_mod_to_equations. lia.
Qed.

(** [sign_extend32(v, 11)] keeps the low twelve bits and subtracts 4096 when
    bit 11 is set. *)
Lemma sign_extend32_11 (v : Z) :
  0 <= v ->
  sign_extend32 v 11 =
  if Z.testbit v 11 then v mod 4096 - 4096 else v mod 4096.
Proof.
  intros Hv. unfold sign_extend32.
  change (to_u8 (31 - 11)) with 20.
  rewrite to_u32_shiftl_20, (testbit_11_low12 v Hv).
  assert (Hl : 0 <= v mod 4096 < 4096) by (apply Z.mod_pos_bound; lia).
  set (l := v mod 4096) in *.
  unfold to_s32.
  rewrite Z.mod_small by lia.
  rewrite Z.shiftr_div_pow2 by lia.
  destruct (Z.leb_spec 2048 l) as [Hge|Hlt].
  - destruct (Z.ltb_spec (l * 2 ^ 20) (2 ^ 31)) as [H|H]; [lia|].
    replace (l * 2 ^ 20 - 2 ^ 32) with ((l - 4096) * 2 ^ 20) by lia.
    apply Z.div_mul. lia.
  - destruct (Z.ltb_spec (l * 2 ^ 20) (2 ^ 31)) as [H|H]; [|lia].
    apply Z.div_mul. lia.
Qed.

Lemma land_shiftl8_byte (a b : Z) :
  0 <= b < 256 -> Z.land (Z.shiftl a 8) b = 0.
Proof.
  intros Hb. apply Z.bits_inj'. intros n Hn.
  rewrite Z.land_spec, Z.bits_0.
  destruct (Z.ltb_spec n 8) as [Hlt|Hge].
  - rewrite Z.shiftl_spec_low by lia. reflexivity.
  - replace (Z.testbit b n) with false; [apply andb_false_r|].
    symmetry. apply Z.testbit_false; [lia|].
    rewrite Z.div_small; [reflexivity|].
    split; [lia|].
    apply Z.lt_le_trans with (2 ^ 8); [lia|].
    apply Z.pow_le_mono_r; lia.
Qed.

(** The two bytes read most significant first. *)
Lemma get_unaligned_be16_bytes (b0 b1 : Byte.byte) (rest : list Byte.byte) :
  get_unaligned_be16 (b0 :: b1 :: rest) = byte_val b0 * 256 + byte_val b1.
Proof.
  unfold get_unaligned_be16. cbn [nth].
  pose proof (byte_val_range b0) as H0.
  pose proof (byte_val_range b1) as H1.
  rewrite <- Z.lxor_lor by (apply land_shiftl8_byte; assumption).
  rewrite <- Z.add_nocarry_lxor by (apply land_shiftl8_byte; assumption).
  rewrite Z.shiftl_mul_pow2 by lia.
  change (2 ^ 8) with 256.
  unfold to_u16. apply Z.mod_small. change (2 ^ 16) with 65536. lia.
Qed.

Lemma to_s32_small (x : Z) : - 2 ^ 31 <= x < 2 ^ 31 -> to_s32 x = x.
Proof.
  intros Hx. unfold to_s32.
  destruct (Z.ltb_spec (x mod 2 ^ 32) (2 ^ 31)) as [H|H];
    Z.div_mod_to_equations; lia.
Qed.

(** What [mcp3221_read] stores for a 16-bit [temp]. *)
Lemma sample_of_temp (temp : Z) :
  0 <= temp < 65536 ->
  to_s32 (sign_extend32 (to_u32 temp) 11) =
  if Z.testbit temp 11 then temp mod 4096 - 4096 else temp mod 4096.
Proof.
  intros Ht.
  unfold to_u32. rewrite (Z.mod_small temp) by lia.
  rewrite sign_extend32_11 by lia.
  assert (Hl : 0 <= temp mod 4096 < 4096) by (apply Z.mod_pos_bound; lia).
  apply to_s32_small. destruct (Z.testbit temp 11); lia.
Qed.

Lemma testbit_11_land (temp : Z) :
  0 <= temp -> Z.testbit (Z.land temp 4095) 11 = Z.testbit temp 11.
Proof.
  intros Ht. rewrite Z.land_spec.
  change (Z.testbit 4095 11) with true. apply andb_true_r.
Qed.

Lemma land_4095 (temp : Z) : Z.land temp 4095 = temp mod 4096.
Proof.
  change 4095 with (Z.ones 12). rewrite Z.land_ones by lia. reflexivity.
Qed.

Lemma get_unaligned_be16_range (buf : list Byte.byte) :
  0 <= get_unaligned_be16 buf < 65536.
Proof.
  unfold get_unaligned_be16, to_u16. change (2 ^ 16) with 65536.
  apply Z.mod_pos_bound. lia.
Qed.

(** The stored sample is the member of [-2048, 2047] congruent to [temp]
    modulo 4096. *)
Lemma sample_low12 (temp : Z) :
  0 <= temp < 65536 ->
  - 2048 <= to_s32 (sign_extend32 (to_u32 temp) 11) <= 2047 /\
  to_s32 (sign_extend32 (to_u32 temp) 11) mod 4096 = temp mod 4096.
Proof.
  intros Ht. rewrite (sample_of_temp temp Ht).
  rewrite testbit_11_low12 by lia.
  assert (Hl : 0 <= temp mod 4096 < 4096) by (apply Z.mod_pos_bound; lia).
  set (l := temp mod 4096) in *.
  destruct (Z.leb_spec 2048 l) as [Hge|Hlt].
  - split; [lia|].
    symmetry. apply (Z.mod_unique (l - 4096) 4096 (-1) l); lia.
  - split; [lia|]. apply Z.mod_small. lia.
Qed.

Lemma low12_determines (x y : Z) :
  - 2048 <= x <= 2047 -> - 2048 <= y <= 2047 ->
  x mod 4096 = y mod 4096 -> x = y.
Proof.
  intros Hx Hy E. Z.div_mod_to_equations. lia.
Qed.

(** ** Running the read path *)

Lemma set_lock_round (d : iio_dev) :
  lock (priv d) = Unlocked -> set_lock Unlocked (set_lock Locked d) = d.
Proof.
  destruct d as [n m i c k [cl a l]]. cbn. intros ->. reflexivity.
Qed.

Lemma count_events_app (p : event -> bool) (l l' : list event) :
  count_events p (l ++ l') = (count_events p l + count_events p l')%nat.
Proof.
  unfold count_events. rewrite filter_app. apply length_app.
Qed.

(** [mcp3221_read] makes one transfer of two bytes and stores the decoded
    buffer, whatever the transfer returned. *)
Lemma mcp3221_read_run (w : world B) (r : Z) (data : list Byte.byte) (b' : B) :
  xfer (client_of w) (bus w) = (r, data, b') ->
  mcp3221_read w =
  Some ((r, sample (store zero4 (firstn 2 data))),
        {| iio := iio w; bus := b'; log := log w ++ [EvI2cRecv 2] |}).
Proof.
  intros Hx. run_driver. rewrite Hx. reflexivity.
Qed.

(** With the lock free, [mcp3221_read_channel] takes it, reads, and gives it
    back: the device is as before. *)
Lemma mcp3221_read_channel_run (w : world B) (chan : iio_chan_spec)
      (r : Z) (data : list Byte.byte) (b' : B) :
  lock (iio_priv (iio w)) = Unlocked ->
  xfer (client_of w) (bus w) = (r, data, b') ->
  mcp3221_read_channel chan w =
  Some ((r, sample (store zero4 (firstn 2 data))),
        {| iio := iio w; bus := b';
           log := log w ++ [EvMutexLock; EvI2cRecv 2; EvMutexUnlock] |}).
Proof.
  intros Hl Hx. unfold iio_priv in Hl, Hx.
  unfold mcp3221_read_channel, mcp3221_read, i2c_master_recv, mutex_lock,
    mutex_unlock, bind, ret, emit, iio_priv.
  rewrite Hl. cbn [iio bus log].
  replace (i2c (priv (set_lock Locked (iio w)))) with (i2c (priv (iio w)))
    by reflexivity.
  rewrite Hx. cbn [iio bus log].
  rewrite (set_lock_round (iio w) Hl), <- !app_assoc. reflexivity.
Qed.

(** A held lock is never taken: the call does not return. *)
Lemma mcp3221_read_channel_blocked (w : world B) (chan : iio_chan_spec) :
  lock (iio_priv (iio w)) = Locked -> mcp3221_read_channel chan w = None.
Proof.
  intros Hl. unfold mcp3221_read_channel, mutex_lock, bind.
  rewrite Hl. reflexivity.
Qed.

Lemma mcp3221_read_raw_RAW_run (w : world B) (chan : iio_chan_spec)
      (val1 val2 r : Z) (data : list Byte.byte) (b' : B) :
  lock (iio_priv (iio w)) = Unlocked ->
  xfer (client_of w) (bus w) = (r, data, b') ->
  mcp3221_read_raw chan val1 val2 IIO_CHAN_INFO_RAW w =
  Some ((if r <? 0 then - EINVAL else IIO_VAL_INT,
         sample (store zero4 (firstn 2 data)), val2),
        {| iio := iio w; bus := b';
           log := log w ++ [EvMutexLock; EvI2cRecv 2; EvMutexUnlock] |}).
Proof.
  intros Hl Hx. unfold mcp3221_read_raw.
  change (IIO_CHAN_INFO_RAW =? IIO_CHAN_INFO_RAW) with true. cbv iota.
  unfold bind at 1.
  rewrite (mcp3221_read_channel_run w chan r data b' Hl Hx).
  destruct (r <? 0); reflexivity.
Qed.

(** ** The sample decoder *)

(** C1: when the transfer delivers the two bytes [b0], [b1], read as the
    unsigned big-endian 16-bit number [temp], [mcp3221_read] stores the low
    twelve bits of [temp] if bit 11 of [temp] is clear and the low twelve
    bits minus 4096, a negative number, if it is set.  So [0x00,0x64] gives
    100, [0x08,0x64] gives -1948 and [0x0F,0xFF] gives -1. *)
Theorem mcp3221_read_sign_extends_bit11 :
  forall (w : world B) (b0 b1 : Byte.byte) (r : Z) (b' : B),
    xfer (client_of w) (bus w) = (r, [b0; b1], b') ->
    let temp := byte_val b0 * 256 + byte_val b1 in
    exists (v : Z) (w' : world B),
      mcp3221_read w = Some ((r, v), w') /\
      0 <= temp < 65536 /\
      (Z.testbit temp 11 = false -> v = temp mod 4096) /\
      (Z.testbit temp 11 = true -> v = temp mod 4096 - 4096 /\ v < 0) /\
      (b0 = Byte.x00 -> b1 = Byte.x64 -> v = 100) /\
      (b0 = Byte.x08 -> b1 = Byte.x64 -> v = -1948) /\
      (b0 = Byte.x0f -> b1 = Byte.xff -> v = -1).
Proof.
  intros w b0 b1 r b' Hx temp.
  assert (Ht : 0 <= temp < 65536).
  { pose proof (byte_val_range b0). pose proof (byte_val_range b1).
    unfold temp. lia. }
  rewrite (mcp3221_read_run w r [b0; b1] b' Hx).
  cbn [firstn store].
  rewrite get_unaligned_be16_bytes. fold temp.
  rewrite (sample_of_temp temp Ht).
  assert (Hl : 0 <= temp mod 4096 < 4096) by (apply Z.mod_pos_bound; lia).
  eexists. eexists. split; [reflexivity|].
  split; [exact Ht|].
  split; [intros ->; reflexivity|].
  split; [intros ->; split; [reflexivity|lia]|].
  repeat split; intros E0 E1; unfold temp; rewrite E0, E1; reflexivity.
Qed.

(** C8: decoding a 16-bit [temp] and decoding [temp] with bits 12 to 15
    cleared give the same sample, both for [sign_extend32] at index 11 and
    for the value [mcp3221_read] stores; two transfers whose first bytes
    differ only in their upper four bits are read as the same sample. *)
Theorem decode_ignores_bits_12_to_15 :
  forall (temp : Z),
    0 <= temp < 65536 ->
    sign_extend32 temp 11 = sign_extend32 (Z.land temp 4095) 11 /\
    to_s32 (sign_extend32 (to_u32 temp) 11) =
    to_s32 (sign_extend32 (to_u32 (Z.land temp 4095)) 11) /\
    (forall (w1 w2 : world B) (b0 c0 b1 : Byte.byte) (r1 r2 : Z) (s1 s2 : B),
        byte_val b0 * 256 + byte_val b1 = temp ->
        byte_val c0 = Z.land (byte_val b0) 15 ->
        xfer (client_of w1) (bus w1) = (r1, [b0; b1], s1) ->
        xfer (client_of w2) (bus w2) = (r2, [c0; b1], s2) ->
        option_map (fun x => snd (fst x)) (mcp3221_read w1) =
        option_map (fun x => snd (fst x)) (mcp3221_read w2)).
Proof.
  intros temp Ht.
  assert (Hm : 0 <= temp mod 4096 < 4096) by (apply Z.mod_pos_bound; lia).
  assert (E : sign_extend32 temp 11 = sign_extend32 (Z.land temp 4095) 11).
  { rewrite (sign_extend32_11 temp) by lia.
    rewrite (sign_extend32_11 (Z.land temp 4095))
      by (rewrite land_4095; lia).
    rewrite testbit_11_land by lia.
    rewrite land_4095, Z.mod_mod by lia. reflexivity. }
  assert (S : to_s32 (sign_extend32 (to_u32 temp) 11) =
              to_s32 (sign_extend32 (to_u32 (Z.land temp 4095)) 11)).
  { unfold to_u32.
    rewrite (Z.mod_small temp) by lia.
    rewrite (Z.mod_small (Z.land temp 4095)) by (rewrite land_4095; lia).
    rewrite E. reflexivity. }
  split; [exact E|]. split; [exact S|].
  intros w1 w2 b0 c0 b1 r1 r2 s1 s2 Htemp Hc H1 H2.
  rewrite (mcp3221_read_run w1 r1 [b0; b1] s1 H1).
  rewrite (mcp3221_read_run w2 r2 [c0; b1] s2 H2).
  cbn [option_map fst snd firstn store].
  rewrite !get_unaligned_be16_bytes, Htemp, Hc.
  f_equal.
  replace (Z.land (byte_val b0) 15 * 256 + byte_val b1)
    with (Z.land temp 4095); [exact S|].
  pose proof (byte_val_range b0) as R0.
  pose proof (byte_val_range b1) as R1.
  rewrite land_4095.
  change 15 with (Z.ones 4). rewrite Z.land_ones by lia.
  change (2 ^ 4) with 16. subst temp.
  Z.div_mod_to_equations. lia.
Qed.

(** ** The fixed channel properties *)

Lemma scale_nano_value : scale_nano = 805664.
Proof. reflexivity. Qed.

(** The text of the [in_voltage_scale_available] attribute shows the same
    number of nanounits. *)
Lemma mcp3221_show_scales_text :
  mcp3221_show_scales = (("0.000805664" ++ newline)%string, 12).
Proof. reflexivity. Qed.

Lemma mcp3221_show_samp_freqs_text :
  mcp3221_show_samp_freqs = (("5500" ++ newline)%string, 5).
Proof. reflexivity. Qed.

(** C2: a read of the SCALE kind answers [IIO_VAL_INT_PLUS_NANO] with the
    pair (0, 805664) and leaves the world as it was, for every world, every
    channel and every previous content of the two value slots, also right
    after a RAW read; 805664 is the quotient of 3300000000 by 4096 rounded
    towards zero, in integer arithmetic. *)
Theorem scale_is_0_805664_nano :
  forall (w : world B) (chan chan0 : iio_chan_spec) (val1 val2 u1 u2 : Z),
    mcp3221_read_raw chan val1 val2 IIO_CHAN_INFO_SCALE w =
      Some ((IIO_VAL_INT_PLUS_NANO, 0, 805664), w) /\
    (mcp3221_read_raw chan0 u1 u2 IIO_CHAN_INFO_RAW ;;
     mcp3221_read_raw chan val1 val2 IIO_CHAN_INFO_SCALE) w =
      option_map (fun x => ((IIO_VAL_INT_PLUS_NANO, 0, 805664), snd x))
                 (mcp3221_read_raw chan0 u1 u2 IIO_CHAN_INFO_RAW w) /\
    scale_nano = Z.quot 3300000000 4096 /\
    805664 * 4096 <= 3300000000 < (805664 + 1) * 4096.
Proof.
  intros w chan chan0 val1 val2 u1 u2.
  split; [reflexivity|]. split.
  - unfold bind at 1.
    destruct (mcp3221_read_raw chan0 u1 u2 IIO_CHAN_INFO_RAW w)
      as [[a w']|]; reflexivity.
  - split; [reflexivity|lia].
Qed.

(** C3: a read of the SAMPLING_FREQUENCY kind answers [IIO_VAL_INT] with
    5500 in the first slot, leaves the second slot and the whole world as
    they were, and always returns. *)
Theorem samp_freq_is_5500 :
  forall (w : world B) (chan : iio_chan_spec) (val1 val2 : Z),
    mcp3221_read_raw chan val1 val2 IIO_CHAN_INFO_SAMP_FREQ w =
      Some ((IIO_VAL_INT, 5500, val2), w) /\
    0 <= IIO_VAL_INT.
Proof.
  intros w chan val1 val2. split; [reflexivity|].
  unfold IIO_VAL_INT. lia.
Qed.

(** The formats announced for writes name the same two kinds. *)
Lemma mcp3221_write_raw_get_fmt_kinds :
  mcp3221_write_raw_get_fmt IIO_CHAN_INFO_SCALE = IIO_VAL_INT_PLUS_NANO /\
  mcp3221_write_raw_get_fmt IIO_CHAN_INFO_SAMP_FREQ = IIO_VAL_INT_PLUS_MICRO /\
  mcp3221_write_raw_get_fmt IIO_CHAN_INFO_RAW = - EINVAL.
Proof. split; [reflexivity|]. split; reflexivity. Qed.

(** ** Rejected requests *)

Lemma mcp3221_write_raw_rejects (w : world B) (chan : iio_chan_spec)
      (val1 val2 mask : Z) :
  mcp3221_write_raw chan val1 val2 mask w = Some (- EINVAL, w).
Proof.
  unfold mcp3221_write_raw.
  destruct (mask =? IIO_CHAN_INFO_SCALE); [reflexivity|].
  destruct (mask =? IIO_CHAN_INFO_SAMP_FREQ); reflexivity.
Qed.

Lemma mcp3221_read_raw_default (w : world B) (chan : iio_chan_spec)
      (val1 val2 mask : Z) :
  mask <> IIO_CHAN_INFO_RAW ->
  mask <> IIO_CHAN_INFO_SCALE ->
  mask <> IIO_CHAN_INFO_SAMP_FREQ ->
  mcp3221_read_raw chan val1 val2 mask w = Some ((- EINVAL, val1, val2), w).
Proof.
  intros H0 H1 H2. unfold mcp3221_read_raw.
  rewrite (proj2 (Z.eqb_neq _ _) H0), (proj2 (Z.eqb_neq _ _) H1),
    (proj2 (Z.eqb_neq _ _) H2).
  reflexivity.
Qed.

(** C5: a read of a kind other than RAW, SCALE and SAMPLING_FREQUENCY, and
    every write, answers [-EINVAL]; the device, the bus and the list of
    kernel calls are exactly as before, and a read leaves both value slots
    as they were. *)
Theorem unsupported_requests_rejected_untouched :
  forall (w : world B) (chan : iio_chan_spec) (val1 val2 mask : Z),
    mask <> IIO_CHAN_INFO_RAW ->
    mask <> IIO_CHAN_INFO_SCALE ->
    mask <> IIO_CHAN_INFO_SAMP_FREQ ->
    mcp3221_read_raw chan val1 val2 mask w =
      Some ((- EINVAL, val1, val2), w) /\
    (forall (wchan : iio_chan_spec) (x1 x2 wmask : Z),
        mcp3221_write_raw wchan x1 x2 wmask w = Some (- EINVAL, w)) /\
    - EINVAL < 0.
Proof.
  intros w chan val1 val2 mask H0 H1 H2.
  split; [apply mcp3221_read_raw_default; assumption|].
  split; [intros; apply mcp3221_write_raw_rejects|].
  unfold EINVAL. lia.
Qed.

(** ** The channel descriptor *)

(** C7: two calls that differ only in the channel descriptor behave alike:
    same answer, same value slots, same world afterwards, for
    [mcp3221_read_channel], for [mcp3221_read_raw] at every kind and for
    [mcp3221_write_raw]. *)
Theorem channel_descriptor_is_ignored :
  forall (w : world B) (chan1 chan2 : iio_chan_spec) (val1 val2 mask : Z),
    mcp3221_read_channel chan1 w = mcp3221_read_channel chan2 w /\
    mcp3221_read_raw chan1 val1 val2 mask w =
      mcp3221_read_raw chan2 val1 val2 mask w /\
    mcp3221_write_raw chan1 val1 val2 mask w =
      mcp3221_write_raw chan2 val1 val2 mask w.
Proof.
  intros w chan1 chan2 val1 val2 mask.
  split; [reflexivity|]. split; reflexivity.
Qed.

(** ** The lock *)

(** C4: with the lock free, a RAW read returns; it takes the lock, makes one
    transfer and gives the lock back, in this order and on both outcomes of
    the transfer, so the lock is free afterwards and the device is as
    before; the next RAW read returns as well.  When the transfer fails the
    answer is the negative code [-EINVAL], otherwise [IIO_VAL_INT]. *)
Theorem read_raw_releases_lock :
  forall (w : world B) (chan : iio_chan_spec) (val1 val2 : Z),
    lock (iio_priv (iio w)) = Unlocked ->
    exists (err v : Z) (w' : world B),
      mcp3221_read_raw chan val1 val2 IIO_CHAN_INFO_RAW w =
        Some ((err, v, val2), w') /\
      lock (iio_priv (iio w')) = Unlocked /\
      iio w' = iio w /\
      log w' = log w ++ [EvMutexLock; EvI2cRecv 2; EvMutexUnlock] /\
      (fst (fst (xfer (client_of w) (bus w))) < 0 ->
       err = - EINVAL /\ err < 0) /\
      (0 <= fst (fst (xfer (client_of w) (bus w))) -> err = IIO_VAL_INT) /\
      (forall (chan' : iio_chan_spec) (u1 u2 : Z),
          mcp3221_read_raw chan' u1 u2 IIO_CHAN_INFO_RAW w' <> None).
Proof.
  intros w chan val1 val2 Hl.
  destruct (xfer (client_of w) (bus w)) as [[r data] b'] eqn:Hx.
  rewrite (mcp3221_read_raw_RAW_run w chan val1 val2 r data b' Hl Hx).
  do 3 eexists. split; [reflexivity|].
  cbn [iio log bus fst].
  split; [exact Hl|]. split; [reflexivity|]. split; [reflexivity|].
  split; [|split].
  - intros Hr. rewrite (proj2 (Z.ltb_lt _ _) Hr). unfold EINVAL. lia.
  - intros Hr. rewrite (proj2 (Z.ltb_ge _ _) Hr). reflexivity.
  - intros chan' u1 u2.
    set (w' := {| iio := iio w; bus := b'; log := _ |}).
    destruct (xfer (client_of w') (bus w')) as [[r2 data2] b2] eqn:Hx2.
    rewrite (mcp3221_read_raw_RAW_run w' chan' u1 u2 r2 data2 b2 Hl Hx2).
    discriminate.
Qed.

(** ** Construction and the steady state *)

Lemma serve_steady (w : world B) (r : request) :
  lock (iio_priv (iio w)) = Unlocked ->
  exists (a : Z * Z * Z) (w' : world B) (ev : list event),
    serve r w = Some (a, w') /\
    iio w' = iio w /\
    log w' = log w ++ ev /\
    count_events is_check_functionality ev = 0%nat.
Proof.
  intros Hl. destruct r as [chan val1 val2 mask|chan val1 val2 mask].
  - cbn [serve].
    destruct (Z.eq_dec mask IIO_CHAN_INFO_RAW) as [->|H0].
    + destruct (xfer (client_of w) (bus w)) as [[r data] b'] eqn:Hx.
      rewrite (mcp3221_read_raw_RAW_run w chan val1 val2 r data b' Hl Hx).
      do 3 eexists. split; [reflexivity|]. cbn [iio log].
      split; [reflexivity|]. split; reflexivity.
    + assert (Hsame : exists a, mcp3221_read_raw chan val1 val2 mask w
                                = Some (a, w)).
      { destruct (Z.eq_dec mask IIO_CHAN_INFO_SCALE) as [->|H1];
          [eexists; reflexivity|].
        destruct (Z.eq_dec mask IIO_CHAN_INFO_SAMP_FREQ) as [->|H2];
          [eexists; reflexivity|].
        rewrite (mcp3221_read_raw_default w chan val1 val2 mask H0 H1 H2).
        eexists; reflexivity. }
      destruct Hsame as [a Ha]. rewrite Ha.
      exists a, w, []. rewrite app_nil_r. repeat split.
  - cbn [serve]. unfold bind.
    rewrite mcp3221_write_raw_rejects.
    exists (- EINVAL, val1, val2), w, []. rewrite app_nil_r. repeat split.
Qed.

Lemma serve_all_steady (rs : list request) :
  forall (w : world B),
    lock (iio_priv (iio w)) = Unlocked ->
    exists (l : list (Z * Z * Z)) (w' : world B) (ev : list event),
      serve_all rs w = Some (l, w') /\
      iio w' = iio w /\
      List.length l = List.length rs /\
      log w' = log w ++ ev /\
      count_events is_check_functionality ev = 0%nat.
Proof.
  induction rs as [|r rs IH]; intros w Hl.
  - exists [], w, []. rewrite app_nil_r. repeat split.
  - destruct (serve_steady w r Hl) as (a & w1 & ev1 & Hs & Hd & Hg & Hc).
    assert (Hl1 : lock (iio_priv (iio w1)) = Unlocked)
      by (rewrite Hd; exact Hl).
    destruct (IH w1 Hl1) as (l & w2 & ev2 & Hs2 & Hd2 & Hn & Hg2 & Hc2).
    exists (a :: l), w2, (ev1 ++ ev2).
    cbn [serve_all]. unfold bind at 1. rewrite Hs.
    unfold bind at 1. rewrite Hs2.
    split; [reflexivity|]. split; [congruence|].
    split; [cbn [List.length]; congruence|].
    split; [rewrite Hg2, Hg, app_assoc; reflexivity|].
    rewrite count_events_app, Hc, Hc2. reflexivity.
Qed.

Lemma mcp3221_probe_checks_once (client : i2c_client) (env : probe_env) :
  count_events is_check_functionality (probe_log (mcp3221_probe client env))
  = 1%nat.
Proof.
  unfold mcp3221_probe.
  destruct (i2c_check_functionality _ _); cbn [negb]; [|reflexivity].
  destruct (alloc_ok env); cbn [negb]; [|reflexivity].
  destruct (register_ret env <? 0); reflexivity.
Qed.

Lemma attach_probe_unlocked (client : i2c_client) (env : probe_env)
      (b : B) (w : world B) :
  attach b (mcp3221_probe client env) = Some w ->
  lock (iio_priv (iio w)) = Unlocked /\
  log w = probe_log (mcp3221_probe client env) /\
  probe_ret (mcp3221_probe client env) = 0.
Proof.
  unfold attach, mcp3221_probe.
  destruct (i2c_check_functionality _ _); cbn [negb]; [|discriminate].
  destruct (alloc_ok env); cbn [negb]; [|discriminate].
  destruct (register_ret env <? 0); cbn [probe_clientdata]; [discriminate|].
  intros [= <-]. repeat split.
Qed.

(** C6: when the adapter lacks [I2C_FUNC_I2C] the probe answers
    [-EOPNOTSUPP] after the functionality check alone: no device object is
    obtained and no client data is set.  Every probe makes the check exactly
    once, and on a device bound by a successful probe any sequence of
    requests is served without making it again. *)
Theorem probe_checks_capability_once :
  forall (client : i2c_client) (env : probe_env),
    (i2c_check_functionality (adapter_functionality client) I2C_FUNC_I2C
       = false ->
     mcp3221_probe client env =
       {| probe_ret := - EOPNOTSUPP; probe_dev := None;
          probe_clientdata := None;
          probe_log := [EvCheckFunctionality I2C_FUNC_I2C] |}) /\
    count_events is_check_functionality
      (probe_log (mcp3221_probe client env)) = 1%nat /\
    (forall (b : B) (w : world B) (rs : list request),
        attach b (mcp3221_probe client env) = Some w ->
        i2c_check_functionality (adapter_functionality client) I2C_FUNC_I2C
          = true /\
        exists (l : list (Z * Z * Z)) (w' : world B) (ev : list event),
          serve_all rs w = Some (l, w') /\
          log w' = probe_log (mcp3221_probe client env) ++ ev /\
          count_events is_check_functionality ev = 0%nat /\
          count_events is_check_functionality (log w') = 1%nat).
Proof.
  intros client env. split; [|split].
  - intros Hc. unfold mcp3221_probe. rewrite Hc. reflexivity.
  - apply mcp3221_probe_checks_once.
  - intros b w rs Ha.
    split.
    { unfold attach, mcp3221_probe in Ha.
      destruct (i2c_check_functionality _ _); [reflexivity|discriminate]. }
    destruct (attach_probe_unlocked client env b w Ha) as (Hl & Hlog & _).
    destruct (serve_all_steady rs w Hl) as (l & w' & ev & Hs & _ & _ & Hg & Hc).
    exists l, w', ev. split; [exact Hs|].
    rewrite Hg, Hlog. split; [reflexivity|]. split; [exact Hc|].
    rewrite count_events_app, Hc, mcp3221_probe_checks_once. reflexivity.
Qed.

(** ** Error codes *)

(** C9, as the driver has it: a probe on an adapter without [I2C_FUNC_I2C]
    answers [-EOPNOTSUPP], while a RAW read whose transfer fails, a read of
    an unsupported kind and every write (any channel, any values, any kind,
    in any world) all answer [-EINVAL].  The construction error differs
    from each of the three; the three are the same code. *)
Theorem construction_error_differs_read_errors_coincide :
  forall (w : world B) (chan : iio_chan_spec) (val1 val2 mask : Z)
         (client : i2c_client) (env : probe_env),
    lock (iio_priv (iio w)) = Unlocked ->
    fst (fst (xfer (client_of w) (bus w))) < 0 ->
    i2c_check_functionality (adapter_functionality client) I2C_FUNC_I2C
      = false ->
    mask <> IIO_CHAN_INFO_RAW ->
    mask <> IIO_CHAN_INFO_SCALE ->
    mask <> IIO_CHAN_INFO_SAMP_FREQ ->
    let e_probe := probe_ret (mcp3221_probe client env) in
    let e_bus := code_of (mcp3221_read_raw chan val1 val2 IIO_CHAN_INFO_RAW w) in
    let e_kind := code_of (mcp3221_read_raw chan val1 val2 mask w) in
    let e_write :=
      fun (ww : world B) (wchan : iio_chan_spec) (x1 x2 wmask : Z) =>
        option_map fst (mcp3221_write_raw wchan x1 x2 wmask ww) in
    e_probe = - EOPNOTSUPP /\
    e_bus = Some (- EINVAL) /\
    e_kind = Some (- EINVAL) /\
    (forall (ww : world B) (wchan : iio_chan_spec) (x1 x2 wmask : Z),
        e_write ww wchan x1 x2 wmask = Some (- EINVAL)) /\
    Some e_probe <> e_bus /\
    Some e_probe <> e_kind /\
    (forall (ww : world B) (wchan : iio_chan_spec) (x1 x2 wmask : Z),
        Some e_probe <> e_write ww wchan x1 x2 wmask) /\
    e_bus = e_kind /\
    (forall (ww : world B) (wchan : iio_chan_spec) (x1 x2 wmask : Z),
        e_bus = e_write ww wchan x1 x2 wmask).
Proof.
  intros w chan val1 val2 mask client env Hl Hr Hc H0 H1 H2.
  destruct (xfer (client_of w) (bus w)) as [[r data] b'] eqn:Hx.
  cbn [fst] in Hr.
  cbv zeta.
  rewrite (mcp3221_read_raw_RAW_run w chan val1 val2 r data b' Hl Hx).
  rewrite (mcp3221_read_raw_default w chan val1 val2 mask H0 H1 H2).
  rewrite (proj2 (Z.ltb_lt _ _) Hr).
  unfold mcp3221_probe. rewrite Hc.
  cbn [negb probe_ret code_of option_map fst].
  split; [reflexivity|]. split; [reflexivity|]. split; [reflexivity|].
  split; [intros; rewrite mcp3221_write_raw_rejects; reflexivity|].
  split; [discriminate|]. split; [discriminate|].
  split; [intros; rewrite mcp3221_write_raw_rejects; discriminate|].
  split; [reflexivity|].
  intros; rewrite mcp3221_write_raw_rejects; reflexivity.
Qed.

(** ** The value slot on a failed transfer *)

(** C10, as the driver has it: when the transfer fails, [mcp3221_read]
    still stores a value before the error is returned: the decoding of the
    receive buffer, which holds the delivered bytes over its initial zeros.
    So the slot receives 0 when no byte was delivered and the sign-extended
    low twelve bits of the two bytes when two were; it lies between -2048
    and 2047.  [mcp3221_read_raw] then answers [-EINVAL] with that value in
    the first slot, whatever the slot held before. *)
Theorem failed_read_overwrites_value_slot :
  forall (w : world B) (chan : iio_chan_spec) (val1 val2 r : Z)
         (data : list Byte.byte) (b' : B),
    lock (iio_priv (iio w)) = Unlocked ->
    r < 0 ->
    xfer (client_of w) (bus w) = (r, data, b') ->
    exists (v : Z),
      v = sample (store zero4 (firstn 2 data)) /\
      mcp3221_read w =
        Some ((r, v),
              {| iio := iio w; bus := b'; log := log w ++ [EvI2cRecv 2] |}) /\
      mcp3221_read_raw chan val1 val2 IIO_CHAN_INFO_RAW w =
        Some ((- EINVAL, v, val2),
              {| iio := iio w; bus := b';
                 log := log w ++
                        [EvMutexLock; EvI2cRecv 2; EvMutexUnlock] |}) /\
      - 2048 <= v <= 2047 /\
      (data = [] -> v = 0) /\
      (forall (b0 b1 : Byte.byte) (rest : list Byte.byte),
          data = b0 :: b1 :: rest ->
          let temp := byte_val b0 * 256 + byte_val b1 in
          v = if Z.testbit temp 11 then temp mod 4096 - 4096
              else temp mod 4096) /\
      (val1 <> v ->
       slot1_of (mcp3221_read_raw chan val1 val2 IIO_CHAN_INFO_RAW w)
       <> Some val1).
Proof.
  intros w chan val1 val2 r data b' Hl Hr Hx.
  rewrite (mcp3221_read_run w r data b' Hx).
  rewrite (mcp3221_read_raw_RAW_run w chan val1 val2 r data b' Hl Hx).
  rewrite (proj2 (Z.ltb_lt _ _) Hr).
  eexists. split; [reflexivity|].
  split; [reflexivity|]. split; [reflexivity|].
  split; [apply sample_low12, get_unaligned_be16_range|].
  split; [intros ->; reflexivity|].
  split.
  - intros b0 b1 rest -> temp. cbn [firstn store].
    rewrite get_unaligned_be16_bytes. fold temp.
    apply sample_of_temp.
    pose proof (byte_val_range b0). pose proof (byte_val_range b1).
    unfold temp. lia.
  - intros Hv. cbn [slot1_of option_map fst snd]. congruence.
Qed.

(** On a failed transfer that did deliver bytes the slot receives their
    decoding instead. *)
Lemma failed_read_stores_decoded_buffer (w : world B) (chan : iio_chan_spec)
      (val1 val2 r : Z) (data : list Byte.byte) (b' : B) :
  lock (iio_priv (iio w)) = Unlocked ->
  r < 0 ->
  xfer (client_of w) (bus w) = (r, data, b') ->
  slot1_of (mcp3221_read_raw chan val1 val2 IIO_CHAN_INFO_RAW w) =
  Some (sample (store zero4 (firstn 2 data))).
Proof.
  intros Hl Hr Hx.
  rewrite (mcp3221_read_raw_RAW_run w chan val1 val2 r data b' Hl Hx).
  reflexivity.
Qed.

(** ** More on the sample decoder *)

(** X1: whatever the transfer returns and delivers, [mcp3221_read] returns
    the transfer's code and stores a sample between -2048 and 2047. *)
Theorem mcp3221_read_sample_in_range :
  forall (w : world B),
  exists (v : Z) (w' : world B),
    mcp3221_read w = Some ((fst (fst (xfer (client_of w) (bus w))), v), w') /\
    - 2048 <= v <= 2047.
Proof.
  intros w.
  destruct (xfer (client_of w) (bus w)) as [[r data] b'] eqn:Hx.
  rewrite (mcp3221_read_run w r data b' Hx).
  do 2 eexists. split; [reflexivity|].
  apply sample_low12, get_unaligned_be16_range.
Qed.

(** X2: decoding inverts the 12-bit two's complement encoding.  If the low
    twelve bits of the two delivered bytes encode [s], a number between
    -2048 and 2047, then [mcp3221_read] stores [s]; the upper four bits of
    the first byte are free. *)
Theorem mcp3221_read_inverts_twos_complement :
  forall (w : world B) (b0 b1 : Byte.byte) (r s : Z) (b' : B),
    - 2048 <= s <= 2047 ->
    xfer (client_of w) (bus w) = (r, [b0; b1], b') ->
    (byte_val b0 * 256 + byte_val b1) mod 4096 = s mod 4096 ->
    mcp3221_read w =
      Some ((r, s),
            {| iio := iio w; bus := b'; log := log w ++ [EvI2cRecv 2] |}).
Proof.
  intros w b0 b1 r s b' Hs Hx Henc.
  rewrite (mcp3221_read_run w r [b0; b1] b' Hx).
  cbn [firstn store]. rewrite get_unaligned_be16_bytes.
  assert (Ht : 0 <= byte_val b0 * 256 + byte_val b1 < 65536).
  { pose proof (byte_val_range b0). pose proof (byte_val_range b1). lia. }
  destruct (sample_low12 _ Ht) as [Hr Hm].
  rewrite (low12_determines _ s Hr Hs) by (rewrite Hm; exact Henc).
  reflexivity.
Qed.

(** X3: two transfers of two bytes are read as the same sample exactly when
    their 16-bit values agree on the low twelve bits. *)
Theorem samples_equal_iff_low12_equal :
  forall (w1 w2 : world B) (b0 b1 c0 c1 : Byte.byte) (r1 r2 : Z) (s1 s2 : B),
    xfer (client_of w1) (bus w1) = (r1, [b0; b1], s1) ->
    xfer (client_of w2) (bus w2) = (r2, [c0; c1], s2) ->
    (option_map (fun x => snd (fst x)) (mcp3221_read w1) =
     option_map (fun x => snd (fst x)) (mcp3221_read w2)
     <->
     (byte_val b0 * 256 + byte_val b1) mod 4096 =
     (byte_val c0 * 256 + byte_val c1) mod 4096).
Proof.
  intros w1 w2 b0 b1 c0 c1 r1 r2 s1 s2 H1 H2.
  rewrite (mcp3221_read_run w1 r1 [b0; b1] s1 H1).
  rewrite (mcp3221_read_run w2 r2 [c0; c1] s2 H2).
  cbn [option_map fst snd firstn store].
  rewrite !get_unaligned_be16_bytes.
  assert (Hb : 0 <= byte_val b0 * 256 + byte_val b1 < 65536).
  { pose proof (byte_val_range b0). pose proof (byte_val_range b1). lia. }
  assert (Hc : 0 <= byte_val c0 * 256 + byte_val c1 < 65536).
  { pose proof (byte_val_range c0). pose proof (byte_val_range c1). lia. }
  destruct (sample_low12 _ Hb) as [Rb Mb].
  destruct (sample_low12 _ Hc) as [Rc Mc].
  split.
  - intros [= E]. rewrite <- Mb, <- Mc, E. reflexivity.
  - intros E. f_equal.
    apply low12_determines; [exact Rb|exact Rc|].
    rewrite Mb, Mc. exact E.
Qed.

(** ** More on the read callback *)

(** X4: the code a RAW read answers depends only on the sign of the
    transfer's code, so every negative code becomes [-EINVAL] and the
    original code is lost; the stored sample depends only on the first two
    delivered bytes, not on the code. *)
Theorem raw_read_answer_depends_on_sign_and_bytes :
  forall (w1 w2 : world B) (chan1 chan2 : iio_chan_spec) (u1 u2 v1 v2 : Z)
         (r1 r2 : Z) (d1 d2 : list Byte.byte) (s1 s2 : B),
    lock (iio_priv (iio w1)) = Unlocked ->
    lock (iio_priv (iio w2)) = Unlocked ->
    xfer (client_of w1) (bus w1) = (r1, d1, s1) ->
    xfer (client_of w2) (bus w2) = (r2, d2, s2) ->
    ((r1 < 0 <-> r2 < 0) ->
     code_of (mcp3221_read_raw chan1 u1 u2 IIO_CHAN_INFO_RAW w1) =
     code_of (mcp3221_read_raw chan2 v1 v2 IIO_CHAN_INFO_RAW w2)) /\
    (firstn 2 d1 = firstn 2 d2 ->
     slot1_of (mcp3221_read_raw chan1 u1 u2 IIO_CHAN_INFO_RAW w1) =
     slot1_of (mcp3221_read_raw chan2 v1 v2 IIO_CHAN_INFO_RAW w2)).
Proof.
  intros w1 w2 chan1 chan2 u1 u2 v1 v2 r1 r2 d1 d2 s1 s2 L1 L2 X1 X2.
  rewrite (mcp3221_read_raw_RAW_run w1 chan1 u1 u2 r1 d1 s1 L1 X1).
  rewrite (mcp3221_read_raw_RAW_run w2 chan2 v1 v2 r2 d2 s2 L2 X2).
  cbn [code_of slot1_of option_map fst snd].
  split.
  - intros Hs.
    destruct (Z.ltb_spec r1 0) as [H1|H1], (Z.ltb_spec r2 0) as [H2|H2];
      try reflexivity; exfalso; lia.
  - intros ->. reflexivity.
Qed.

(** X5: a transfer with a non-negative code is a success whatever it
    delivered.  With no byte delivered the reading is 0; with one byte
    delivered the second byte counts as zero, so the low eight bits of the
    reading are zero. *)
Theorem raw_read_accepts_short_transfers :
  forall (w : world B) (chan : iio_chan_spec) (val1 val2 r : Z) (b' : B),
    lock (iio_priv (iio w)) = Unlocked ->
    0 <= r ->
    (xfer (client_of w) (bus w) = (r, [], b') ->
     mcp3221_read_raw chan val1 val2 IIO_CHAN_INFO_RAW w =
       Some ((IIO_VAL_INT, 0, val2),
             {| iio := iio w; bus := b';
                log := log w ++ [EvMutexLock; EvI2cRecv 2; EvMutexUnlock] |}))
    /\
    (forall (b0 : Byte.byte),
        xfer (client_of w) (bus w) = (r, [b0], b') ->
        exists (v : Z),
          mcp3221_read_raw chan val1 val2 IIO_CHAN_INFO_RAW w =
            Some ((IIO_VAL_INT, v, val2),
                  {| iio := iio w; bus := b';
                     log := log w ++
                            [EvMutexLock; EvI2cRecv 2; EvMutexUnlock] |}) /\
          v mod 256 = 0 /\
          v mod 4096 = (byte_val b0 mod 16) * 256).
Proof.
  intros w chan val1 val2 r b' Hl Hr. split.
  - intros Hx.
    rewrite (mcp3221_read_raw_RAW_run w chan val1 val2 r [] b' Hl Hx).
    rewrite (proj2 (Z.ltb_ge _ _) Hr). reflexivity.
  - intros b0 Hx.
    rewrite (mcp3221_read_raw_RAW_run w chan val1 val2 r [b0] b' Hl Hx).
    rewrite (proj2 (Z.ltb_ge _ _) Hr).
    cbn [firstn store]. rewrite get_unaligned_be16_bytes.
    change (byte_val Byte.x00) with 0. rewrite Z.add_0_r.
    pose proof (byte_val_range b0) as R0.
    assert (Ht : 0 <= byte_val b0 * 256 < 65536) by lia.
    destruct (sample_low12 _ Ht) as [_ Hm].
    eexists. split; [reflexivity|].
    set (v := to_s32 _) in *.
    assert (E : (byte_val b0 * 256) mod 4096 = (byte_val b0 mod 16) * 256).
    { change 4096 with (16 * 256).
      apply Z.mul_mod_distr_r; lia. }
    rewrite E in Hm. split; [|exact Hm].
    pose proof (Z.mod_pos_bound (byte_val b0) 16 ltac:(lia)) as R16.
    Z.div_mod_to_equations. lia.
Qed.

(** X6: what a read that returned has touched.  The device is as before;
    unless the kind was RAW the bus and the list of kernel calls are as
    before; unless the kind was SCALE the second value slot is as before;
    and the code is [-EINVAL], [IIO_VAL_INT] or [IIO_VAL_INT_PLUS_NANO],
    never 0. *)
Theorem read_raw_frame :
  forall (w w' : world B) (chan : iio_chan_spec) (val1 val2 mask : Z)
         (code out1 out2 : Z),
    mcp3221_read_raw chan val1 val2 mask w = Some ((code, out1, out2), w') ->
    iio w' = iio w /\
    (mask <> IIO_CHAN_INFO_RAW -> w' = w) /\
    (mask = IIO_CHAN_INFO_RAW ->
     log w' = log w ++ [EvMutexLock; EvI2cRecv 2; EvMutexUnlock] /\
     bus w' = snd (xfer (client_of w) (bus w))) /\
    (mask <> IIO_CHAN_INFO_SCALE -> out2 = val2) /\
    (code = - EINVAL \/ code = IIO_VAL_INT \/ code = IIO_VAL_INT_PLUS_NANO) /\
    code <> 0.
Proof.
  intros w w' chan val1 val2 mask code out1 out2 Hrun.
  assert (Hcodes : forall c, c = - EINVAL \/ c = IIO_VAL_INT \/
                             c = IIO_VAL_INT_PLUS_NANO -> c <> 0).
  { unfold EINVAL, IIO_VAL_INT, IIO_VAL_INT_PLUS_NANO. intros c Hc. lia. }
  destruct (Z.eq_dec mask IIO_CHAN_INFO_RAW) as [->|H0].
  - destruct (lock (iio_priv (iio w))) eqn:Hl.
    + destruct (xfer (client_of w) (bus w)) as [[r data] b'] eqn:Hx.
      rewrite (mcp3221_read_raw_RAW_run w chan val1 val2 r data b' Hl Hx)
        in Hrun.
      injection Hrun as <- <- <- <-. cbn [iio log bus snd].
      assert (Hc : (if r <? 0 then - EINVAL else IIO_VAL_INT) = - EINVAL \/
                   (if r <? 0 then - EINVAL else IIO_VAL_INT) = IIO_VAL_INT \/
                   (if r <? 0 then - EINVAL else IIO_VAL_INT)
                   = IIO_VAL_INT_PLUS_NANO)
        by (destruct (r <? 0); auto).
      split; [reflexivity|]. split; [congruence|].
      split; [intros _; split; reflexivity|].
      split; [reflexivity|]. split; [exact Hc|apply Hcodes, Hc].
    + unfold mcp3221_read_raw in Hrun.
      change (IIO_CHAN_INFO_RAW =? IIO_CHAN_INFO_RAW) with true in Hrun.
      cbv iota in Hrun. unfold bind at 1 in Hrun.
      rewrite (mcp3221_read_channel_blocked w chan Hl) in Hrun.
      discriminate.
  - destruct (Z.eq_dec mask IIO_CHAN_INFO_SCALE) as [->|H1].
    + injection Hrun as <- <- <- <-.
      split; [reflexivity|]. split; [reflexivity|].
      split; [intros E; discriminate E|].
      split; [congruence|]. split; [auto|apply Hcodes; auto].
    + destruct (Z.eq_dec mask IIO_CHAN_INFO_SAMP_FREQ) as [->|H2].
      * injection Hrun as <- <- <- <-.
        split; [reflexivity|]. split; [reflexivity|].
        split; [intros E; discriminate E|].
        split; [reflexivity|]. split; [auto|apply Hcodes; auto].
      * rewrite (mcp3221_read_raw_default w chan val1 val2 mask H0 H1 H2)
          in Hrun.
        injection Hrun as <- <- <- <-.
        split; [reflexivity|]. split; [reflexivity|].
        split; [congruence|].
        split; [reflexivity|]. split; [auto|apply Hcodes; auto].
Qed.

(** X7: a RAW read returns exactly when the lock is free; the reads of the
    other kinds and the writes return whatever the state of the lock. *)
Theorem raw_read_returns_iff_lock_free :
  forall (w : world B) (chan : iio_chan_spec) (val1 val2 mask : Z),
    (mcp3221_read_raw chan val1 val2 IIO_CHAN_INFO_RAW w <> None <->
     lock (iio_priv (iio w)) = Unlocked) /\
    (mask <> IIO_CHAN_INFO_RAW ->
     mcp3221_read_raw chan val1 val2 mask w <> None) /\
    mcp3221_write_raw chan val1 val2 mask w <> None.
Proof.
  intros w chan val1 val2 mask. split; [|split].
  - split.
    + intros Hret. destruct (lock (iio_priv (iio w))) eqn:Hl; [reflexivity|].
      exfalso. apply Hret. unfold mcp3221_read_raw.
      change (IIO_CHAN_INFO_RAW =? IIO_CHAN_INFO_RAW) with true.
      cbv iota. unfold bind at 1.
      rewrite (mcp3221_read_channel_blocked w chan Hl). reflexivity.
    + intros Hl.
      destruct (xfer (client_of w) (bus w)) as [[r data] b'] eqn:Hx.
      rewrite (mcp3221_read_raw_RAW_run w chan val1 val2 r data b' Hl Hx).
      discriminate.
  - intros H0.
    destruct (Z.eq_dec mask IIO_CHAN_INFO_SCALE) as [->|H1]; [discriminate|].
    destruct (Z.eq_dec mask IIO_CHAN_INFO_SAMP_FREQ) as [->|H2];
      [discriminate|].
    rewrite (mcp3221_read_raw_default w chan val1 val2 mask H0 H1 H2).
    discriminate.
  - rewrite mcp3221_write_raw_rejects. discriminate.
Qed.

(** ** Sequences of requests *)

Lemma serve_calls (w : world B) (r : request) :
  lock (iio_priv (iio w)) = Unlocked ->
  exists (a : Z * Z * Z) (w' : world B),
    serve r w = Some (a, w') /\
    iio w' = iio w /\
    log w' = log w ++ calls_of r.
Proof.
  intros Hl. destruct r as [chan val1 val2 mask|chan val1 val2 mask].
  - cbn [serve]. unfold calls_of, is_raw_read.
    destruct (Z.eqb_spec mask IIO_CHAN_INFO_RAW) as [->|H0].
    + destruct (xfer (client_of w) (bus w)) as [[r data] b'] eqn:Hx.
      rewrite (mcp3221_read_raw_RAW_run w chan val1 val2 r data b' Hl Hx).
      do 2 eexists. split; [reflexivity|]. split; reflexivity.
    + rewrite app_nil_r.
      destruct (Z.eq_dec mask IIO_CHAN_INFO_SCALE) as [->|H1];
        [do 2 eexists; split; [reflexivity|split; reflexivity]|].
      destruct (Z.eq_dec mask IIO_CHAN_INFO_SAMP_FREQ) as [->|H2];
        [do 2 eexists; split; [reflexivity|split; reflexivity]|].
      rewrite (mcp3221_read_raw_default w chan val1 val2 mask H0 H1 H2).
      do 2 eexists. split; [reflexivity|split; reflexivity].
  - cbn [serve]. unfold bind. rewrite mcp3221_write_raw_rejects.
    unfold calls_of, is_raw_read. rewrite app_nil_r.
    do 2 eexists. split; [reflexivity|split; reflexivity].
Qed.

Lemma count_recv_calls (rs : list request) :
  count_events is_i2c_recv (flat_map calls_of rs)
  = List.length (filter is_raw_read rs).
Proof.
  induction rs as [|r rs IH]; [reflexivity|].
  cbn [flat_map filter]. rewrite count_events_app, IH.
  unfold calls_of. destruct (is_raw_read r); reflexivity.
Qed.

(** X8: starting with the lock free, every sequence of reads and writes is
    served to its end with one answer per request and the device as it was.
    The kernel calls made are, request by request, lock, one transfer of two
    bytes, unlock for a RAW read and nothing for anything else: there are as
    many transfers as RAW reads, failed ones included, and each lies
    between a lock and its unlock. *)
Theorem serve_all_calls :
  forall (rs : list request) (w : world B),
    lock (iio_priv (iio w)) = Unlocked ->
    exists (l : list (Z * Z * Z)) (w' : world B),
      serve_all rs w = Some (l, w') /\
      iio w' = iio w /\
      List.length l = List.length rs /\
      log w' = log w ++ flat_map calls_of rs /\
      count_events is_i2c_recv (flat_map calls_of rs)
      = List.length (filter is_raw_read rs).
Proof.
  induction rs as [|r rs IH]; intros w Hl.
  - exists [], w. cbn [flat_map]. rewrite app_nil_r.
    split; [reflexivity|]. split; [reflexivity|].
    split; [reflexivity|]. split; reflexivity.
  - destruct (serve_calls w r Hl) as (a & w1 & Hs & Hd & Hg).
    assert (Hl1 : lock (iio_priv (iio w1)) = Unlocked)
      by (rewrite Hd; exact Hl).
    destruct (IH w1 Hl1) as (l & w2 & Hs2 & Hd2 & Hn & Hg2 & _).
    exists (a :: l), w2.
    cbn [serve_all]. unfold bind at 1. rewrite Hs.
    unfold bind at 1. rewrite Hs2.
    split; [reflexivity|]. split; [congruence|].
    split; [cbn [List.length]; congruence|].
    split; [|apply count_recv_calls].
    cbn [flat_map]. rewrite Hg2, Hg, app_assoc. reflexivity.
Qed.

(** ** More on construction *)

(** X9: the probe's return code tells the outcome.  It is never positive;
    it is 0 exactly when the client data is set, which is exactly when the
    adapter has [I2C_FUNC_I2C], the device object was obtained and the
    registration did not answer a negative code; the client data, when set,
    is the device object. *)
Theorem probe_ret_classifies_outcome :
  forall (client : i2c_client) (env : probe_env),
    probe_ret (mcp3221_probe client env) <= 0 /\
    (probe_ret (mcp3221_probe client env) = 0 <->
     probe_clientdata (mcp3221_probe client env) <> None) /\
    (probe_ret (mcp3221_probe client env) = 0 <->
     i2c_check_functionality (adapter_functionality client) I2C_FUNC_I2C
       = true /\
     alloc_ok env = true /\
     0 <= register_ret env) /\
    (probe_clientdata (mcp3221_probe client env) <> None ->
     probe_clientdata (mcp3221_probe client env)
     = probe_dev (mcp3221_probe client env)).
Proof.
  intros client env. unfold mcp3221_probe.
  destruct (i2c_check_functionality _ _); cbn [negb].
  - destruct (alloc_ok env); cbn [negb].
    + destruct (Z.ltb_spec (register_ret env) 0) as [Hneg|Hpos];
        cbn [probe_ret probe_clientdata probe_dev].
      * split; [lia|]. split; [split; [lia|congruence]|].
        split; [split; [lia|intros (_ & _ & H); lia]|congruence].
      * split; [lia|]. split; [split; [discriminate|reflexivity]|].
        split; [split; [auto|reflexivity]|reflexivity].
    + cbn [probe_ret probe_clientdata probe_dev]. unfold ENOMEM.
      split; [lia|]. split; [split; [lia|congruence]|].
      split; [split; [lia|intros (_ & H & _); discriminate H]|congruence].
  - cbn [probe_ret probe_clientdata probe_dev]. unfold EOPNOTSUPP.
    split; [lia|]. split; [split; [lia|congruence]|].
    split; [split; [lia|intros (H & _); discriminate H]|congruence].
Qed.

(** X10: the kernel calls of a probe are an initial part of the sequence
    check, allocate, initialise the mutex, register, set the client data,
    of length 1, 2, 4 or 5.  So nothing is allocated before the check, the
    mutex is initialised before the device is registered, a device object
    exists exactly when at least four calls were made, and all five are
    made exactly when the probe answers 0. *)
Theorem probe_calls_in_order :
  forall (client : i2c_client) (env : probe_env),
  exists (n : nat),
    probe_log (mcp3221_probe client env) = firstn n probe_calls /\
    (n = 1 \/ n = 2 \/ n = 4 \/ n = 5)%nat /\
    (n = 5%nat <-> probe_ret (mcp3221_probe client env) = 0) /\
    ((4 <= n)%nat <-> probe_dev (mcp3221_probe client env) <> None).
Proof.
  intros client env. unfold mcp3221_probe.
  destruct (i2c_check_functionality _ _); cbn [negb].
  - destruct (alloc_ok env); cbn [negb].
    + destruct (Z.ltb_spec (register_ret env) 0) as [Hneg|Hpos];
        cbn [probe_ret probe_log probe_dev].
      * exists 4%nat. split; [reflexivity|]. split; [lia|].
        split; [split; [discriminate|lia]|].
        split; [discriminate|lia].
      * exists 5%nat. split; [reflexivity|]. split; [lia|].
        split; [split; reflexivity|].
        split; [discriminate|lia].
    + exists 2%nat. cbn [probe_ret probe_log probe_dev]. unfold ENOMEM.
      split; [reflexivity|]. split; [lia|].
      split; [split; [discriminate|lia]|].
      split; [lia|congruence].
  - exists 1%nat. cbn [probe_ret probe_log probe_dev]. unfold EOPNOTSUPP.
    split; [reflexivity|]. split; [lia|].
    split; [split; [discriminate|lia]|].
    split; [lia|congruence].
Qed.

(** X11: the failures after the functionality check.  When no device object
    can be obtained the probe answers [-ENOMEM], whatever the registration
    would have said, and initialises no mutex; when the registration answers
    a negative code the probe answers that very code, with the device
    object obtained and its mutex initialised but no client data set. *)
Theorem probe_failure_codes :
  forall (client : i2c_client) (env : probe_env),
    i2c_check_functionality (adapter_functionality client) I2C_FUNC_I2C
      = true ->
    (alloc_ok env = false ->
     probe_ret (mcp3221_probe client env) = - ENOMEM /\
     probe_dev (mcp3221_probe client env) = None /\
     probe_clientdata (mcp3221_probe client env) = None /\
     ~ In EvMutexInit (probe_log (mcp3221_probe client env)) /\
     ~ In EvDeviceRegister (probe_log (mcp3221_probe client env))) /\
    (alloc_ok env = true ->
     register_ret env < 0 ->
     probe_ret (mcp3221_probe client env) = register_ret env /\
     probe_dev (mcp3221_probe client env) <> None /\
     probe_clientdata (mcp3221_probe client env) = None /\
     In EvMutexInit (probe_log (mcp3221_probe client env)) /\
     ~ In EvSetClientdata (probe_log (mcp3221_probe client env))).
Proof.
  intros client env Hc. unfold mcp3221_probe. rewrite Hc. cbn [negb].
  split.
  - intros ->. cbn [negb probe_ret probe_dev probe_clientdata probe_log].
    split; [reflexivity|]. split; [reflexivity|]. split; [reflexivity|].
    split; intros [H|[H|[]]]; discriminate H.
  - intros -> Hneg. cbn [negb].
    rewrite (proj2 (Z.ltb_lt _ _) Hneg).
    cbn [probe_ret probe_dev probe_clientdata probe_log].
    split; [reflexivity|]. split; [discriminate|]. split; [reflexivity|].
    split; [cbn; auto|].
    intros [H|[H|[H|[H|[]]]]]; discriminate H.
Qed.

(** X12: a probe that answers 0 leaves a device ready for use: it is bound
    to the probed client and carries its name, its lock is free, it has the
    one channel of index 0 and [num_channels] is the number of its
    channels; the first RAW read on it returns. *)
Theorem probed_device_is_ready :
  forall (client : i2c_client) (env : probe_env) (b : B),
    probe_ret (mcp3221_probe client env) = 0 ->
    exists (w : world B),
      attach b (mcp3221_probe client env) = Some w /\
      probe_dev (mcp3221_probe client env) = Some (iio w) /\
      i2c (iio_priv (iio w)) = client /\
      name (iio w) = client_name client /\
      lock (iio_priv (iio w)) = Unlocked /\
      channels (iio w) = [MCP3221_CHAN 0] /\
      num_channels (iio w) = Z.of_nat (List.length (channels (iio w))) /\
      bus w = b /\
      (forall (chan : iio_chan_spec) (val1 val2 : Z),
          mcp3221_read_raw chan val1 val2 IIO_CHAN_INFO_RAW w <> None).
Proof.
  intros client env b. unfold attach, mcp3221_probe.
  destruct (i2c_check_functionality _ _); cbn [negb];
    [|unfold EOPNOTSUPP; cbn [probe_ret]; lia].
  destruct (alloc_ok env); cbn [negb];
    [|unfold ENOMEM; cbn [probe_ret]; lia].
  destruct (Z.ltb_spec (register_ret env) 0) as [Hneg|Hpos];
    cbn [probe_ret probe_clientdata probe_dev]; [lia|].
  intros _. eexists. split; [reflexivity|]. cbn [iio bus].
  split; [reflexivity|]. split; [reflexivity|]. split; [reflexivity|].
  split; [reflexivity|]. split; [reflexivity|]. split; [reflexivity|].
  split; [reflexivity|].
  intros chan val1 val2.
  set (w := {| iio := _; bus := b; log := _ |}).
  destruct (xfer (client_of w) (bus w)) as [[r data] b'] eqn:Hx.
  rewrite (mcp3221_read_raw_RAW_run w chan val1 val2 r data b' eq_refl Hx).
  discriminate.
Qed.

(** ** The channel descriptor and the kinds served *)

Lemma testbit_4101 (kind : Z) :
  Z.testbit 4101 kind = true <-> kind = 0 \/ kind = 2 \/ kind = 12.
Proof.
  split.
  - intros Hb.
    destruct (Z.ltb_spec kind 0) as [Hneg|Hpos].
    { rewrite Z.testbit_neg_r in Hb by lia. discriminate. }
    destruct (Z.ltb_spec 12 kind) as [Hbig|Hsmall].
    { rewrite Z.bits_above_log2 in Hb; [discriminate|lia|].
      change (Z.log2 4101) with 12. lia. }
    assert (Hk : kind = 0 \/ kind = 1 \/ kind = 2 \/ kind = 3 \/ kind = 4 \/
                 kind = 5 \/ kind = 6 \/ kind = 7 \/ kind = 8 \/ kind = 9 \/
                 kind = 10 \/ kind = 11 \/ kind = 12) by lia.
    repeat (destruct Hk as [->|Hk]; [first [discriminate Hb|auto]|]).
    subst kind. auto.
  - intros [-> | [-> | ->]]; reflexivity.
Qed.

(** X13: for every index, the descriptor [MCP3221_CHAN] builds carries that
    index and advertises exactly the kinds RAW, SCALE and
    SAMPLING_FREQUENCY; a read of a kind it does not advertise is answered
    [-EINVAL] with the value slots and the world untouched. *)
Theorem advertised_kinds_are_the_served_ones :
  forall (index kind : Z),
    channel (MCP3221_CHAN index) = index /\
    (advertised (MCP3221_CHAN index) kind = true <->
     kind = IIO_CHAN_INFO_RAW \/ kind = IIO_CHAN_INFO_SCALE \/
     kind = IIO_CHAN_INFO_SAMP_FREQ) /\
    (advertised (MCP3221_CHAN index) kind = false ->
     forall (w : world B) (val1 val2 : Z),
       mcp3221_read_raw (MCP3221_CHAN index) val1 val2 kind w =
         Some ((- EINVAL, val1, val2), w)).
Proof.
  intros index kind.
  assert (Hadv : advertised (MCP3221_CHAN index) kind = Z.testbit 4101 kind)
    by reflexivity.
  split; [reflexivity|]. split.
  - rewrite Hadv. apply testbit_4101.
  - intros Hno w val1 val2. rewrite Hadv in Hno.
    apply mcp3221_read_raw_default; intros ->;
      rewrite (proj2 (testbit_4101 _)) in Hno;
      try discriminate Hno; unfold IIO_CHAN_INFO_RAW, IIO_CHAN_INFO_SCALE,
        IIO_CHAN_INFO_SAMP_FREQ; auto.
Qed.

(** X14: a write format is announced for SCALE and SAMPLING_FREQUENCY and
    for no other kind, yet a write of either kind is rejected like any
    other; for SCALE the announced format is the one a SCALE read answers
    with, for SAMPLING_FREQUENCY it is not the one a read answers with. *)
Theorem write_formats_announced_but_writes_rejected :
  forall (w : world B) (chan : iio_chan_spec) (val1 val2 mask : Z),
    (mcp3221_write_raw_get_fmt mask <> - EINVAL <->
     mask = IIO_CHAN_INFO_SCALE \/ mask = IIO_CHAN_INFO_SAMP_FREQ) /\
    (0 < mcp3221_write_raw_get_fmt mask ->
     mcp3221_write_raw chan val1 val2 mask w = Some (- EINVAL, w)) /\
    code_of (mcp3221_read_raw chan val1 val2 IIO_CHAN_INFO_SCALE w)
      = Some (mcp3221_write_raw_get_fmt IIO_CHAN_INFO_SCALE) /\
    code_of (mcp3221_read_raw chan val1 val2 IIO_CHAN_INFO_SAMP_FREQ w)
      <> Some (mcp3221_write_raw_get_fmt IIO_CHAN_INFO_SAMP_FREQ).
Proof.
  intros w chan val1 val2 mask. split; [|split; [|split]].
  - unfold mcp3221_write_raw_get_fmt.
    destruct (Z.eqb_spec mask IIO_CHAN_INFO_SCALE) as [->|H1].
    + split; [auto|discriminate].
    + destruct (Z.eqb_spec mask IIO_CHAN_INFO_SAMP_FREQ) as [->|H2].
      * split; [auto|discriminate].
      * split; [congruence|intros [E|E]; contradiction].
  - intros _. apply mcp3221_write_raw_rejects.
  - reflexivity.
  - discriminate.
Qed.

(** A step that returns hands its result and world to what follows. *)
Lemma bind_Some {A C : Type} (m : M A) (k : A -> M C)
      (w w' : world B) (a : A) :
  m w = Some (a, w') -> bind m k w = k a w'.
Proof.
  intros Hm. unfold bind. rewrite Hm. reflexivity.
Qed.

End Driver.

(** ** The theorems at a scripted transport *)

(** A transfer that fails once and then delivers [0x00, 0x64]: the first
    read is refused, the second returns 100, and a SCALE read in between
    makes no transfer. *)
Example fail_once_then_read :
  option_map fst
    (serve_all script script_xfer
       [ReqRead (MCP3221_CHAN 0) 7 9 IIO_CHAN_INFO_RAW;
        ReqRead (MCP3221_CHAN 0) 7 9 IIO_CHAN_INFO_SCALE;
        ReqRead (MCP3221_CHAN 0) 7 9 IIO_CHAN_INFO_RAW]
       (example_world [(-5, []); (2, [Byte.x00; Byte.x64])]))
  = Some [(- EINVAL, 0, 9); (IIO_VAL_INT_PLUS_NANO, 0, 805664);
          (IIO_VAL_INT, 100, 9)].
Proof. reflexivity. Qed.

(** With the lock held the read never returns. *)
Example held_lock_blocks :
  mcp3221_read_raw script script_xfer (MCP3221_CHAN 0) 7 9 IIO_CHAN_INFO_RAW
    {| iio := example_dev Locked; bus := [(2, [Byte.x00; Byte.x64])];
       log := [] |}
  = None.
Proof. reflexivity. Qed.

(** A transfer that fails after its first byte arrived leaves that byte in
    the buffer. *)
Example failed_read_after_one_byte :
  slot1_of
    (mcp3221_read_raw script script_xfer (MCP3221_CHAN 0) 7 9
       IIO_CHAN_INFO_RAW (example_world [(-5, [Byte.x01])]))
  = Some 256.
Proof. reflexivity. Qed.

Lemma mcp3221_read_sign_extends_bit11_witness :
  script_xfer example_client [(2, [Byte.x08; Byte.x64])]
    = (2, [Byte.x08; Byte.x64], []) /\
  exists (w' : world script),
    mcp3221_read script script_xfer
      (example_world [(2, [Byte.x08; Byte.x64])]) = Some ((2, -1948), w').
Proof.
  split; [reflexivity|].
  destruct (mcp3221_read_sign_extends_bit11 script script_xfer
              (example_world [(2, [Byte.x08; Byte.x64])])
              Byte.x08 Byte.x64 2 [] eq_refl)
    as (v & w' & Hrun & _ & _ & _ & _ & Hv & _).
  exists w'. rewrite Hrun, (Hv eq_refl eq_refl). reflexivity.
Defined.

Lemma decode_ignores_bits_12_to_15_witness :
  0 <= 63588 < 65536 /\
  sign_extend32 63588 11 = sign_extend32 (Z.land 63588 4095) 11 /\
  option_map (fun x => snd (fst x))
    (mcp3221_read script script_xfer
       (example_world [(2, [Byte.xf8; Byte.x64])])) =
  option_map (fun x => snd (fst x))
    (mcp3221_read script script_xfer
       (example_world [(2, [Byte.x08; Byte.x64])])).
Proof.
  assert (R : 0 <= 63588 < 65536) by lia.
  split; [exact R|].
  destruct (decode_ignores_bits_12_to_15 script script_xfer 63588 R)
    as (Hs & _ & Hread).
  split; [exact Hs|].
  exact (Hread (example_world [(2, [Byte.xf8; Byte.x64])])
               (example_world [(2, [Byte.x08; Byte.x64])])
               Byte.xf8 Byte.x08 Byte.x64 2 2 [] []
               eq_refl eq_refl eq_refl eq_refl).
Defined.

Lemma read_raw_releases_lock_witness :
  lock (iio_priv (iio (example_world [(-5, [])]))) = Unlocked /\
  exists (v : Z) (w' : world script),
    mcp3221_read_raw script script_xfer (MCP3221_CHAN 0) 7 9
      IIO_CHAN_INFO_RAW (example_world [(-5, [])])
      = Some ((- EINVAL, v, 9), w') /\
    lock (iio_priv (iio w')) = Unlocked /\
    mcp3221_read_raw script script_xfer (MCP3221_CHAN 0) 7 9
      IIO_CHAN_INFO_RAW w' <> None.
Proof.
  split; [reflexivity|].
  destruct (read_raw_releases_lock script script_xfer
              (example_world [(-5, [])]) (MCP3221_CHAN 0) 7 9 eq_refl)
    as (err & v & w' & Hrun & Hfree & _ & _ & Hfail & _ & Hnext).
  assert (Hneg : fst (fst (script_xfer example_client [(-5, [])])) < 0)
    by (simpl; lia).
  destruct (Hfail Hneg) as [He _].
  exists v, w'. rewrite Hrun, He.
  split; [reflexivity|]. split; [exact Hfree|apply Hnext].
Defined.

Lemma unsupported_requests_rejected_untouched_witness :
  1 <> IIO_CHAN_INFO_RAW /\
  1 <> IIO_CHAN_INFO_SCALE /\
  1 <> IIO_CHAN_INFO_SAMP_FREQ /\
  mcp3221_read_raw script script_xfer (MCP3221_CHAN 0) 7 9 1
    (example_world [(2, [Byte.x00; Byte.x64])])
    = Some ((- EINVAL, 7, 9), example_world [(2, [Byte.x00; Byte.x64])]) /\
  mcp3221_write_raw script (MCP3221_CHAN 0) 7 9 IIO_CHAN_INFO_SCALE
    (example_world [(2, [Byte.x00; Byte.x64])])
    = Some (- EINVAL, example_world [(2, [Byte.x00; Byte.x64])]).
Proof.
  assert (H0 : 1 <> IIO_CHAN_INFO_RAW) by (unfold IIO_CHAN_INFO_RAW; lia).
  assert (H1 : 1 <> IIO_CHAN_INFO_SCALE) by (unfold IIO_CHAN_INFO_SCALE; lia).
  assert (H2 : 1 <> IIO_CHAN_INFO_SAMP_FREQ)
    by (unfold IIO_CHAN_INFO_SAMP_FREQ; lia).
  destruct (unsupported_requests_rejected_untouched script script_xfer
              (example_world [(2, [Byte.x00; Byte.x64])])
              (MCP3221_CHAN 0) 7 9 1 H0 H1 H2) as (Hr & Hw & _).
  split; [exact H0|]. split; [exact H1|]. split; [exact H2|].
  split; [exact Hr|apply Hw].
Defined.

Lemma probe_checks_capability_once_witness :
  i2c_check_functionality (adapter_functionality smbus_only_client)
    I2C_FUNC_I2C = false /\
  probe_ret (mcp3221_probe smbus_only_client (mk_probe_env true 0))
    = - EOPNOTSUPP /\
  probe_dev (mcp3221_probe smbus_only_client (mk_probe_env true 0)) = None /\
  exists (w : world script),
    attach [(2, [Byte.x00; Byte.x64])]
      (mcp3221_probe example_client (mk_probe_env true 0)) = Some w /\
    exists (l : list (Z * Z * Z)) (w' : world script),
      serve_all script script_xfer
        [ReqRead (MCP3221_CHAN 0) 0 0 IIO_CHAN_INFO_RAW;
         ReqRead (MCP3221_CHAN 0) 0 0 IIO_CHAN_INFO_SCALE] w = Some (l, w') /\
      count_events is_check_functionality (log w') = 1%nat.
Proof.
  assert (Hno : i2c_check_functionality
                  (adapter_functionality smbus_only_client) I2C_FUNC_I2C
                = false) by reflexivity.
  split; [exact Hno|].
  destruct (probe_checks_capability_once script script_xfer
              smbus_only_client (mk_probe_env true 0)) as (Hfail & _ & _).
  rewrite (Hfail Hno).
  split; [reflexivity|]. split; [reflexivity|].
  destruct (probe_checks_capability_once script script_xfer
              example_client (mk_probe_env true 0)) as (_ & _ & Hsteady).
  eexists. split; [reflexivity|].
  destruct (Hsteady [(2, [Byte.x00; Byte.x64])] _
              [ReqRead (MCP3221_CHAN 0) 0 0 IIO_CHAN_INFO_RAW;
               ReqRead (MCP3221_CHAN 0) 0 0 IIO_CHAN_INFO_SCALE] eq_refl)
    as (_ & l & w' & ev & Hs & _ & _ & Hone).
  exists l, w'. split; [exact Hs|exact Hone].
Defined.

(** C9 as the claim states it fails: on a device whose transfer fails, the
    code answered for the failed RAW read is the code answered for a read
    of the unsupported kind 1 (and for a write). *)
Lemma bus_failure_and_invalid_request_share_code :
  ~ (code_of (mcp3221_read_raw script script_xfer (MCP3221_CHAN 0) 0 0
                IIO_CHAN_INFO_RAW (example_world [(-5, [])]))
     <> code_of (mcp3221_read_raw script script_xfer (MCP3221_CHAN 0) 0 0
                   1 (example_world [(-5, [])]))).
Proof.
  intros Hdiff. apply Hdiff. reflexivity.
Qed.

Lemma construction_error_differs_read_errors_coincide_witness :
  lock (iio_priv (iio (example_world [(-5, [])]))) = Unlocked /\
  fst (fst (script_xfer example_client [(-5, [])])) < 0 /\
  i2c_check_functionality (adapter_functionality smbus_only_client)
    I2C_FUNC_I2C = false /\
  probe_ret (mcp3221_probe smbus_only_client (mk_probe_env true 0)) = -95 /\
  code_of (mcp3221_read_raw script script_xfer (MCP3221_CHAN 0) 0 0
             IIO_CHAN_INFO_RAW (example_world [(-5, [])])) = Some (-22) /\
  code_of (mcp3221_read_raw script script_xfer (MCP3221_CHAN 0) 0 0
             1 (example_world [(-5, [])])) = Some (-22) /\
  option_map fst
    (mcp3221_write_raw script (MCP3221_CHAN 0) 1 500000
       IIO_CHAN_INFO_SCALE (example_world [(2, [Byte.x00; Byte.x64])]))
  = Some (-22).
Proof.
  assert (Hneg : fst (fst (script_xfer example_client [(-5, [])])) < 0)
    by (simpl; lia).
  assert (H0 : 1 <> IIO_CHAN_INFO_RAW) by (unfold IIO_CHAN_INFO_RAW; lia).
  assert (H1 : 1 <> IIO_CHAN_INFO_SCALE) by (unfold IIO_CHAN_INFO_SCALE; lia).
  assert (H2 : 1 <> IIO_CHAN_INFO_SAMP_FREQ)
    by (unfold IIO_CHAN_INFO_SAMP_FREQ; lia).
  destruct (construction_error_differs_read_errors_coincide
              script script_xfer (example_world [(-5, [])]) (MCP3221_CHAN 0)
              0 0 1 smbus_only_client (mk_probe_env true 0)
              eq_refl Hneg eq_refl H0 H1 H2)
    as (Hp & Hb & Hk & Hw & _).
  split; [reflexivity|]. split; [exact Hneg|]. split; [reflexivity|].
  split; [exact Hp|]. split; [exact Hb|]. split; [exact Hk|].
  exact (Hw (example_world [(2, [Byte.x00; Byte.x64])]) (MCP3221_CHAN 0)
            1 500000 IIO_CHAN_INFO_SCALE).
Defined.

(** C10 as the claim states it fails: a transfer that fails after its first
    byte arrived leaves that byte in the buffer, and the slot receives 256,
    not 0; one that fails after delivering [0x00, 0x07] stores 7, so a slot
    that held 7 is left as it was. *)
Lemma failed_read_with_bytes_does_not_store_zero :
  slot1_of
    (mcp3221_read_raw script script_xfer (MCP3221_CHAN 0) 7 9
       IIO_CHAN_INFO_RAW (example_world [(-5, [Byte.x01])]))
  <> Some 0 /\
  code_of
    (mcp3221_read_raw script script_xfer (MCP3221_CHAN 0) 7 9
       IIO_CHAN_INFO_RAW (example_world [(-5, [Byte.x01])]))
  = Some (- EINVAL) /\
  slot1_of
    (mcp3221_read_raw script script_xfer (MCP3221_CHAN 0) 7 9
       IIO_CHAN_INFO_RAW (example_world [(-5, [Byte.x00; Byte.x07])]))
  = Some 7.
Proof.
  split; [discriminate|]. split; reflexivity.
Qed.

Lemma failed_read_overwrites_value_slot_witness :
  lock (iio_priv (iio (example_world [(-5, [])]))) = Unlocked /\
  -5 < 0 /\
  script_xfer example_client [(-5, [])] = (-5, [], []) /\
  slot1_of (mcp3221_read_raw script script_xfer (MCP3221_CHAN 0) 7 9
              IIO_CHAN_INFO_RAW (example_world [(-5, [])])) = Some 0 /\
  script_xfer example_client [(-5, [Byte.x08; Byte.x64])]
    = (-5, [Byte.x08; Byte.x64], []) /\
  mcp3221_read_raw script script_xfer (MCP3221_CHAN 0) 7 9
    IIO_CHAN_INFO_RAW (example_world [(-5, [Byte.x08; Byte.x64])])
  = Some ((- EINVAL, -1948, 9),
          {| iio := example_dev Unlocked; bus := [];
             log := [EvMutexLock; EvI2cRecv 2; EvMutexUnlock] |}).
Proof.
  assert (Hneg : -5 < 0) by lia.
  destruct (failed_read_overwrites_value_slot script script_xfer
              (example_world [(-5, [])]) (MCP3221_CHAN 0) 7 9 (-5) [] []
              eq_refl Hneg eq_refl) as (v & _ & _ & Hraw & _ & Hzero & _).
  destruct (failed_read_overwrites_value_slot script script_xfer
              (example_world [(-5, [Byte.x08; Byte.x64])]) (MCP3221_CHAN 0)
              7 9 (-5) [Byte.x08; Byte.x64] [] eq_refl Hneg eq_refl)
    as (u & _ & _ & Hraw2 & _ & _ & Htwo & _).
  split; [reflexivity|]. split; [exact Hneg|]. split; [reflexivity|].
  split; [rewrite Hraw, (Hzero eq_refl); reflexivity|].
  split; [reflexivity|].
  rewrite Hraw2, (Htwo Byte.x08 Byte.x64 [] eq_refl). reflexivity.
Defined.

(** ** Reads against a script *)

(** X15: against a scripted bus, as many RAW reads as the script has
    transfers are answered transfer by transfer, in order: each read uses up
    exactly one transfer, a failed transfer is answered [-EINVAL] and is not
    tried again, and no reading is carried over to the next read. *)
Theorem scripted_reads_follow_script :
  forall (s : script) (w : world script) (chan : iio_chan_spec)
         (val1 val2 : Z),
    lock (iio_priv (iio w)) = Unlocked ->
    bus w = s ->
    exists (w' : world script),
      serve_all script script_xfer
        (map (fun _ => ReqRead chan val1 val2 IIO_CHAN_INFO_RAW) s) w
        = Some (map (answer_of_transfer val2) s, w') /\
      iio w' = iio w /\
      bus w' = [].
Proof.
  induction s as [|[r data] s IH]; intros w chan val1 val2 Hl Hb.
  - exists w. split; [reflexivity|]. split; [reflexivity|exact Hb].
  - assert (Hx : script_xfer (i2c (iio_priv (iio w))) (bus w) = (r, data, s))
      by (rewrite Hb; reflexivity).
    pose proof (mcp3221_read_raw_RAW_run script script_xfer w chan val1 val2
                  r data s Hl Hx) as Hrun.
    set (w1 := {| iio := iio w; bus := s;
                  log := log w ++ [EvMutexLock; EvI2cRecv 2; EvMutexUnlock] |})
      in Hrun.
    destruct (IH w1 chan val1 val2 Hl eq_refl) as (w' & Hs & Hd & Hbus).
    subst w1. exists w'. cbn [map serve_all serve].
    rewrite (bind_Some script _ _ _ _ _ Hrun).
    rewrite (bind_Some script _ _ _ _ _ Hs).
    split; [reflexivity|]. split; [exact Hd|exact Hbus].
Qed.

Lemma mcp3221_read_inverts_twos_complement_witness :
  - 2048 <= -1948 <= 2047 /\
  script_xfer example_client [(2, [Byte.xf8; Byte.x64])]
    = (2, [Byte.xf8; Byte.x64], []) /\
  (byte_val Byte.xf8 * 256 + byte_val Byte.x64) mod 4096 = -1948 mod 4096 /\
  option_map fst (mcp3221_read script script_xfer
                    (example_world [(2, [Byte.xf8; Byte.x64])]))
  = Some (2, -1948).
Proof.
  assert (Hs : - 2048 <= -1948 <= 2047) by lia.
  assert (He : (byte_val Byte.xf8 * 256 + byte_val Byte.x64) mod 4096
               = -1948 mod 4096) by reflexivity.
  split; [exact Hs|]. split; [reflexivity|]. split; [exact He|].
  rewrite (mcp3221_read_inverts_twos_complement script script_xfer
             (example_world [(2, [Byte.xf8; Byte.x64])])
             Byte.xf8 Byte.x64 2 (-1948) [] Hs eq_refl He).
  reflexivity.
Defined.

Lemma samples_equal_iff_low12_equal_witness :
  (byte_val Byte.xf8 * 256 + byte_val Byte.x64) mod 4096 =
  (byte_val Byte.x08 * 256 + byte_val Byte.x64) mod 4096 /\
  option_map (fun x => snd (fst x))
    (mcp3221_read script script_xfer
       (example_world [(2, [Byte.xf8; Byte.x64])])) =
  option_map (fun x => snd (fst x))
    (mcp3221_read script script_xfer
       (example_world [(-5, [Byte.x08; Byte.x64])])).
Proof.
  assert (He : (byte_val Byte.xf8 * 256 + byte_val Byte.x64) mod 4096 =
               (byte_val Byte.x08 * 256 + byte_val Byte.x64) mod 4096)
    by reflexivity.
  split; [exact He|].
  exact (proj2 (samples_equal_iff_low12_equal script script_xfer
                  (example_world [(2, [Byte.xf8; Byte.x64])])
                  (example_world [(-5, [Byte.x08; Byte.x64])])
                  Byte.xf8 Byte.x64 Byte.x08 Byte.x64 2 (-5) [] []
                  eq_refl eq_refl) He).
Defined.

Lemma raw_read_answer_depends_on_sign_and_bytes_witness :
  (-5 < 0 <-> -121 < 0) /\
  code_of (mcp3221_read_raw script script_xfer (MCP3221_CHAN 0) 1 2
             IIO_CHAN_INFO_RAW (example_world [(-5, [])])) =
  code_of (mcp3221_read_raw script script_xfer (MCP3221_CHAN 0) 3 4
             IIO_CHAN_INFO_RAW (example_world [(-121, [Byte.x01])])) /\
  slot1_of (mcp3221_read_raw script script_xfer (MCP3221_CHAN 0) 1 2
              IIO_CHAN_INFO_RAW
              (example_world [(2, [Byte.x08; Byte.x64; Byte.xff])])) =
  slot1_of (mcp3221_read_raw script script_xfer (MCP3221_CHAN 0) 3 4
              IIO_CHAN_INFO_RAW
              (example_world [(-5, [Byte.x08; Byte.x64])])).
Proof.
  assert (Hsign : -5 < 0 <-> -121 < 0) by lia.
  split; [exact Hsign|]. split.
  - exact (proj1 (raw_read_answer_depends_on_sign_and_bytes script script_xfer
                    (example_world [(-5, [])])
                    (example_world [(-121, [Byte.x01])])
                    (MCP3221_CHAN 0) (MCP3221_CHAN 0) 1 2 3 4
                    (-5) (-121) [] [Byte.x01] [] []
                    eq_refl eq_refl eq_refl eq_refl) Hsign).
  - exact (proj2 (raw_read_answer_depends_on_sign_and_bytes script script_xfer
                    (example_world [(2, [Byte.x08; Byte.x64; Byte.xff])])
                    (example_world [(-5, [Byte.x08; Byte.x64])])
                    (MCP3221_CHAN 0) (MCP3221_CHAN 0) 1 2 3 4
                    2 (-5) [Byte.x08; Byte.x64; Byte.xff]
                    [Byte.x08; Byte.x64] [] []
                    eq_refl eq_refl eq_refl eq_refl) eq_refl).
Defined.

Lemma raw_read_accepts_short_transfers_witness :
  lock (iio_priv (iio (example_world [(0, [])]))) = Unlocked /\
  0 <= 0 /\
  code_of (mcp3221_read_raw script script_xfer (MCP3221_CHAN 0) 7 9
             IIO_CHAN_INFO_RAW (example_world [(0, [])]))
  = Some IIO_VAL_INT /\
  slot1_of (mcp3221_read_raw script script_xfer (MCP3221_CHAN 0) 7 9
              IIO_CHAN_INFO_RAW (example_world [(0, [])]))
  = Some 0 /\
  exists (v : Z),
    slot1_of (mcp3221_read_raw script script_xfer (MCP3221_CHAN 0) 7 9
                IIO_CHAN_INFO_RAW (example_world [(1, [Byte.x0f])]))
    = Some v /\ v mod 256 = 0.
Proof.
  assert (H0 : 0 <= 0) by lia.
  assert (H1 : 0 <= 1) by lia.
  split; [reflexivity|]. split; [exact H0|].
  destruct (raw_read_accepts_short_transfers script script_xfer
              (example_world [(0, [])]) (MCP3221_CHAN 0) 7 9 0 []
              eq_refl H0) as [Hnone _].
  rewrite (Hnone eq_refl).
  split; [reflexivity|]. split; [reflexivity|].
  destruct (raw_read_accepts_short_transfers script script_xfer
              (example_world [(1, [Byte.x0f])]) (MCP3221_CHAN 0) 7 9 1 []
              eq_refl H1) as [_ Hone].
  destruct (Hone Byte.x0f eq_refl) as (v & Hrun & Hv & _).
  exists v. rewrite Hrun. split; [reflexivity|exact Hv].
Defined.

Lemma read_raw_frame_witness :
  mcp3221_read_raw script script_xfer (MCP3221_CHAN 0) 7 9
    IIO_CHAN_INFO_SAMP_FREQ (example_world [(2, [Byte.x00; Byte.x64])])
  = Some ((IIO_VAL_INT, 5500, 9),
          example_world [(2, [Byte.x00; Byte.x64])]) /\
  iio (example_world [(2, [Byte.x00; Byte.x64])])
  = iio (example_world [(2, [Byte.x00; Byte.x64])]) /\
  IIO_VAL_INT <> 0.
Proof.
  split; [reflexivity|].
  destruct (read_raw_frame script script_xfer
              (example_world [(2, [Byte.x00; Byte.x64])])
              (example_world [(2, [Byte.x00; Byte.x64])])
              (MCP3221_CHAN 0) 7 9 IIO_CHAN_INFO_SAMP_FREQ
              IIO_VAL_INT 5500 9 eq_refl) as (Hd & _ & _ & _ & _ & Hnz).
  split; [exact Hd|exact Hnz].
Defined.

Lemma serve_all_calls_witness :
  lock (iio_priv (iio (example_world [(-5, [])]))) = Unlocked /\
  exists (l : list (Z * Z * Z)) (w' : world script),
    serve_all script script_xfer
      [ReqRead (MCP3221_CHAN 0) 0 0 IIO_CHAN_INFO_RAW;
       ReqWrite (MCP3221_CHAN 0) 1 0 IIO_CHAN_INFO_SCALE;
       ReqRead (MCP3221_CHAN 0) 0 0 IIO_CHAN_INFO_RAW]
      (example_world [(-5, [])]) = Some (l, w') /\
    log w' = [EvMutexLock; EvI2cRecv 2; EvMutexUnlock;
              EvMutexLock; EvI2cRecv 2; EvMutexUnlock].
Proof.
  split; [reflexivity|].
  destruct (serve_all_calls script script_xfer
              [ReqRead (MCP3221_CHAN 0) 0 0 IIO_CHAN_INFO_RAW;
               ReqWrite (MCP3221_CHAN 0) 1 0 IIO_CHAN_INFO_SCALE;
               ReqRead (MCP3221_CHAN 0) 0 0 IIO_CHAN_INFO_RAW]
              (example_world [(-5, [])]) eq_refl)
    as (l & w' & Hs & _ & _ & Hlog & _).
  exists l, w'. split; [exact Hs|exact Hlog].
Defined.

Lemma probe_failure_codes_witness :
  i2c_check_functionality (adapter_functionality example_client) I2C_FUNC_I2C
    = true /\
  probe_ret (mcp3221_probe example_client (mk_probe_env false 0))
    = - ENOMEM /\
  -16 < 0 /\
  probe_ret (mcp3221_probe example_client (mk_probe_env true (-16))) = -16.
Proof.
  assert (Hneg : -16 < 0) by lia.
  destruct (probe_failure_codes example_client (mk_probe_env false 0)
              eq_refl) as [Hmem _].
  destruct (probe_failure_codes example_client (mk_probe_env true (-16))
              eq_refl) as [_ Hreg].
  split; [reflexivity|]. split; [exact (proj1 (Hmem eq_refl))|].
  split; [exact Hneg|exact (proj1 (Hreg eq_refl Hneg))].
Defined.

Lemma probed_device_is_ready_witness :
  probe_ret (mcp3221_probe example_client (mk_probe_env true 0)) = 0 /\
  exists (w : world script),
    attach [(2, [Byte.x00; Byte.x64])]
      (mcp3221_probe example_client (mk_probe_env true 0)) = Some w /\
    lock (iio_priv (iio w)) = Unlocked /\
    mcp3221_read_raw script script_xfer (MCP3221_CHAN 0) 0 0
      IIO_CHAN_INFO_RAW w <> None.
Proof.
  split; [reflexivity|].
  destruct (probed_device_is_ready script script_xfer example_client
              (mk_probe_env true 0) [(2, [Byte.x00; Byte.x64])] eq_refl)
    as (w & Ha & _ & _ & _ & Hl & _ & _ & _ & Hread).
  exists w. split; [exact Ha|]. split; [exact Hl|apply Hread].
Defined.

Lemma scripted_reads_follow_script_witness :
  lock (iio_priv (iio (example_world
                         [(-5, []); (2, [Byte.x00; Byte.x64])]))) = Unlocked /\
  exists (w' : world script),
    serve_all script script_xfer
      [ReqRead (MCP3221_CHAN 0) 7 9 IIO_CHAN_INFO_RAW;
       ReqRead (MCP3221_CHAN 0) 7 9 IIO_CHAN_INFO_RAW]
      (example_world [(-5, []); (2, [Byte.x00; Byte.x64])])
    = Some ([(- EINVAL, 0, 9); (IIO_VAL_INT, 100, 9)], w') /\
    bus w' = [].
Proof.
  split; [reflexivity|].
  destruct (scripted_reads_follow_script
              [(-5, []); (2, [Byte.x00; Byte.x64])]
              (example_world [(-5, []); (2, [Byte.x00; Byte.x64])])
              (MCP3221_CHAN 0) 7 9 eq_refl eq_refl) as (w' & Hs & _ & Hb).
  exists w'. split; [exact Hs|exact Hb].
Defined.
